(** * vercel-mcp: the MCP adapter of [app.py], embedded and verified

    The development follows the layout of [app.py]:

    - Python values that travel through the program (parsed JSON) and the
      few built-ins the program applies to them ([str], [repr], truthiness,
      [dict.get], subscripting, [json.dumps(..., indent=2)]);
    - a small monad for Python exceptions plus a trace of the effects the
      specification talks about (Backend Client invocations, outbound HTTP
      requests, log records);
    - [vercel_request], [TOOLS], [handle_tool_call], [process_mcp_message]
      and [mcp_handler], each translated branch by branch;
    - the theorems.

    Modelling conventions.
    - A Python [str] is a Rocq [string]; a character is an 8-bit code point,
      so the escapes of [repr] and [json.dumps] are the ones Python uses on
      the Latin-1 range.
    - A Python [dict] is an association list in insertion order (the order
      [json.dumps] prints); assignment to an existing key keeps its place.
    - A [float] is carried by the text Python's [repr] gives for it; no
      arithmetic is ever done on one by this program.
    - The network is an oracle from the outbound request to what [httpx]
      does with it: a response, or an exception. *)

From Stdlib Require Import String Ascii List ZArith Bool Lia DecimalString.
Import ListNotations.
Set Warnings "-register-all".
Open Scope Z_scope.
Open Scope string_scope.

(** ** Python values *)

Inductive json : Type :=
| JNull
| JBool (b : bool)
| JInt (n : Z)
| JFloat (repr : string)
| JStr (s : string)
| JList (items : list json)
| JObj (fields : list (string * json)).

Definition dict : Type := list (string * json).

(** [d.get(k)] on the fields of a dict: the first (and, in a well-formed
    dict, only) binding of [k]. *)
Fixpoint dict_get (d : dict) (k : string) : option json :=
  match d with
  | [] => None
  | (k', v) :: d' => if String.eqb k k' then Some v else dict_get d' k
  end.

(** [d[k] = v]: replaces in place, or appends a new key at the end. *)
Fixpoint dict_set (d : dict) (k : string) (v : json) : dict :=
  match d with
  | [] => [(k, v)]
  | (k', v') :: d' =>
      if String.eqb k k' then (k', v) :: d' else (k', v') :: dict_set d' k v
  end.

Definition dict_get_default (d : dict) (k : string) (dflt : json) : json :=
  match dict_get d k with Some v => v | None => dflt end.

Module Py.

(** *** Characters and numbers as text *)

Definition dquote : ascii := ascii_of_nat 34.
Definition squote : ascii := ascii_of_nat 39.
Definition backslash : ascii := ascii_of_nat 92.
Definition newline : ascii := ascii_of_nat 10.
Definition chr (c : ascii) : string := String c EmptyString.

Definition hex_digit (n : nat) : ascii :=
  nth n (list_ascii_of_string "0123456789abcdef") "0"%char.

(** [format(ord(c), "02x")] *)
Definition hex2 (c : ascii) : string :=
  let n := nat_of_ascii c in
  String (hex_digit (Nat.div n 16)) (String (hex_digit (Nat.modulo n 16)) EmptyString).

(** [str(n)] for an [int]. *)
Definition dec (n : Z) : string := NilZero.string_of_int (Z.to_int n).

Fixpoint join (sep : string) (l : list string) : string :=
  match l with
  | [] => EmptyString
  | [x] => x
  | x :: l' => x ++ sep ++ join sep l'
  end.

Fixpoint has_char (c : ascii) (s : string) : bool :=
  match s with
  | EmptyString => false
  | String c' s' => Ascii.eqb c c' || has_char c s'
  end.

Fixpoint concat_map (f : ascii -> string) (s : string) : string :=
  match s with
  | EmptyString => EmptyString
  | String c s' => f c ++ concat_map f s'
  end.

(** *** [repr] and [str] *)

(** One character of [repr(s)], given the quote chosen for [s]
    (CPython's [unicode_repr]). Of the Latin-1 range, the code points
    0x80-0xa0 and 0xad are not printable. *)
Definition repr_char (quote c : ascii) : string :=
  let n := nat_of_ascii c in
  if Ascii.eqb c quote || Ascii.eqb c backslash then String backslash (chr c)
  else if Nat.eqb n 9 then "\t"
  else if Nat.eqb n 10 then "\n"
  else if Nat.eqb n 13 then "\r"
  else if Nat.ltb n 32 || Nat.eqb n 127 then "\x" ++ hex2 c
  else if Nat.ltb n 127 then chr c
  else if Nat.leb n 160 || Nat.eqb n 173 then "\x" ++ hex2 c
  else chr c.

Definition repr_str (s : string) : string :=
  let quote := if has_char squote s && negb (has_char dquote s)
               then dquote else squote in
  chr quote ++ concat_map (repr_char quote) s ++ chr quote.

Fixpoint repr (v : json) : string :=
  match v with
  | JNull => "None"
  | JBool true => "True"
  | JBool false => "False"
  | JInt n => dec n
  | JFloat r => r
  | JStr s => repr_str s
  | JList l => "[" ++ join ", " (map repr l) ++ "]"
  | JObj d =>
      "{" ++ join ", " (map (fun kv => let '(k, x) := kv in
                                       repr_str k ++ ": " ++ repr x) d) ++ "}"
  end.

(** [str(v)], which is also what an f-string field [{v}] produces. *)
Definition str (v : json) : string :=
  match v with
  | JStr s => s
  | _ => repr v
  end.

(** [type(v).__name__] *)
Definition type_name (v : json) : string :=
  match v with
  | JNull => "NoneType"
  | JBool _ => "bool"
  | JInt _ => "int"
  | JFloat _ => "float"
  | JStr _ => "str"
  | JList _ => "list"
  | JObj _ => "dict"
  end.

(** [bool(v)]: what [if v:] and [not v] test. *)
Definition truthy (v : json) : bool :=
  match v with
  | JNull => false
  | JBool b => b
  | JInt n => negb (Z.eqb n 0)
  | JFloat r => negb (String.eqb r "0.0" || String.eqb r "-0.0")
  | JStr s => negb (String.eqb s EmptyString)
  | JList l => match l with [] => false | _ => true end
  | JObj d => match d with [] => false | _ => true end
  end.

(** [v == lit] for a string literal [lit]. *)
Definition eq_str (v : json) (lit : string) : bool :=
  match v with
  | JStr s => String.eqb s lit
  | _ => false
  end.

(** *** [json.dumps(v, indent=2, default=str)] *)

(** One character of [json.encoder.encode_basestring_ascii]: everything
    outside [' '..'~'], the double quote and the backslash are escaped. *)
Definition escape_char (c : ascii) : string :=
  let n := nat_of_ascii c in
  if Ascii.eqb c backslash then String backslash (chr backslash)
  else if Ascii.eqb c dquote then String backslash (chr dquote)
  else if Nat.eqb n 8 then "\b"
  else if Nat.eqb n 12 then "\f"
  else if Nat.eqb n 10 then "\n"
  else if Nat.eqb n 13 then "\r"
  else if Nat.eqb n 9 then "\t"
  else if Nat.ltb n 32 || Nat.ltb 126 n then "\u00" ++ hex2 c
  else chr c.

Definition encode_basestring_ascii (s : string) : string :=
  chr dquote ++ concat_map escape_char s ++ chr dquote.

Fixpoint spaces (n : nat) : string :=
  match n with
  | O => EmptyString
  | S n' => String " "%char (spaces n')
  end.

(** ['\n' + ' ' * (2 * level)] *)
Definition newline_indent (level : nat) : string :=
  String newline (spaces (2 * level)).

Definition float_json (r : string) : string :=
  if String.eqb r "nan" then "NaN"
  else if String.eqb r "inf" then "Infinity"
  else if String.eqb r "-inf" then "-Infinity"
  else r.

(** The encoder at nesting depth [level]. Every value of type [json] is
    serialisable, so the [default=str] hook is never consulted. *)
Fixpoint encode (level : nat) (v : json) : string :=
  match v with
  | JNull => "null"
  | JBool true => "true"
  | JBool false => "false"
  | JInt n => dec n
  | JFloat r => float_json r
  | JStr s => encode_basestring_ascii s
  | JList [] => "[]"
  | JList l =>
      "[" ++ newline_indent (S level)
          ++ join ("," ++ newline_indent (S level)) (map (encode (S level)) l)
          ++ newline_indent level ++ "]"
  | JObj [] => "{}"
  | JObj d =>
      "{" ++ newline_indent (S level)
          ++ join ("," ++ newline_indent (S level))
               (map (fun kv => let '(k, x) := kv in
                               encode_basestring_ascii k ++ ": " ++ encode (S level) x) d)
          ++ newline_indent level ++ "}"
  end.

Definition json_dumps (v : json) : string := encode 0 v.

End Py.

(** ** Exceptions, effects and the trace *)

(** The exceptions the program can meet. [KeyError] keeps the missing key
    (its [str] is the key's [repr]); the other classes keep their message.
    [Exception] stands for any other class: what the HTTP client raises
    (timeouts, connection errors) and what [response.json()] raises on a
    body that is not JSON. *)
Inductive exn : Type :=
| KeyError (key : string)
| AttributeError (msg : string)
| TypeError (msg : string)
| Exception (msg : string).

(** [str(e)] *)
Definition exn_str (e : exn) : string :=
  match e with
  | KeyError k => Py.repr_str k
  | AttributeError m | TypeError m | Exception m => m
  end.

Inductive result (A : Type) : Type :=
| Ok (a : A)
| Raise (e : exn).
Arguments Ok {A} a.
Arguments Raise {A} e.

(** What [httpx] is asked to send. GET and DELETE are called without
    [json=...], so they carry no body. *)
Record HttpRequest : Type := mkRequest {
  verb : string;
  url : string;
  headers : list (string * string);
  body : option dict;
  query : option dict
}.

(** What came back: the status code, the body text, and what
    [response.json()] does on that body. *)
Record Response : Type := mkResponse {
  status_code : Z;
  text : string;
  json_body : result json
}.

Inductive HttpOutcome : Type :=
| Responded (r : Response)
| Failed (e : exn).

Inductive event : Type :=
| EvBackend (method endpoint : string) (data params : option dict)
| EvHttp (req : HttpRequest)
| EvLog (msg : string).

(** A computation: its outcome and the events it produced, in order. *)
Definition M (A : Type) : Type := (result A * list event)%type.

Definition ret {A} (a : A) : M A := (Ok a, []).
Definition raise {A} (e : exn) : M A := (Raise e, []).
Definition emit (ev : event) : M unit := (Ok tt, [ev]).

Definition bind {A B} (m : M A) (k : A -> M B) : M B :=
  match m with
  | (Ok a, t) => let (r, t') := k a in (r, (t ++ t')%list)
  | (Raise e, t) => (Raise e, t)
  end.

(** [try: m except Exception as e: h e] *)
Definition try_except {A} (m : M A) (h : exn -> M A) : M A :=
  match m with
  | (Ok a, t) => (Ok a, t)
  | (Raise e, t) => let (r, t') := h e in (r, (t ++ t')%list)
  end.

Definition lift {A} (r : result A) : M A := (r, []).

Declare Scope py_scope.
Delimit Scope py_scope with py.
Notation "x <- m ;; k" := (bind m (fun x => k))
  (at level 100, m at next level, right associativity) : py_scope.
Notation "m ;;; k" := (bind m (fun _ => k))
  (at level 100, right associativity) : py_scope.
Open Scope py_scope.

Definition backend_calls (t : list event) : list event :=
  filter (fun ev => match ev with EvBackend _ _ _ _ => true | _ => false end) t.

Definition http_requests (t : list event) : list HttpRequest :=
  flat_map (fun ev => match ev with EvHttp r => [r] | _ => [] end) t.

(** [v.get(k, dflt)]: only a dict has the method. *)
Definition py_get (v : json) (k : string) (dflt : json) : M json :=
  match v with
  | JObj d => ret (dict_get_default d k dflt)
  | _ => raise (AttributeError
                  ("'" ++ Py.type_name v ++ "' object has no attribute 'get'"))
  end.

(** [v[k]] for a string key [k] (messages as CPython 3.11 and later
    word them). *)
Definition py_getitem (v : json) (k : string) : M json :=
  match v with
  | JObj d => match dict_get d k with
              | Some x => ret x
              | None => raise (KeyError k)
              end
  | JList _ => raise (TypeError "list indices must be integers or slices, not str")
  | JStr _ => raise (TypeError "string indices must be integers, not 'str'")
  | _ => raise (TypeError ("'" ++ Py.type_name v ++ "' object is not subscriptable"))
  end.

(** ** Configuration and the Backend Client *)

Record Env : Type := mkEnv {
  VERCEL_TOKEN : string;
  VERCEL_TEAM_ID : string;
  transport : HttpRequest -> HttpOutcome
}.

Definition BASE_URL : string := "https://api.vercel.com".

Definition accepted_status : list Z := [200; 201; 202; 204].

Definition status_in (code : Z) (l : list Z) : bool := existsb (Z.eqb code) l.

Section Backend.
Variable env : Env.

(** [client.get/post/...]: the request leaves, and the transport either
    answers or raises. *)
Definition send (req : HttpRequest) : M Response :=
  emit (EvHttp req) ;;;
  match transport env req with
  | Responded r => ret r
  | Failed e => raise e
  end.

(** Lines 55-60: what is made of a response. *)
Definition normalize (response : Response) : M json :=
  if status_in (status_code response) accepted_status then
    if Z.eqb (status_code response) 204 then
      ret (JObj [("success", JBool true)])
    else lift (json_body response)
  else
    ret (JObj [("error", JStr ("HTTP " ++ Py.dec (status_code response)));
               ("details", JStr (substring 0 500 (text response)))]).

(** Lines 36-38: [if VERCEL_TEAM_ID: params = params or {};
    params["teamId"] = VERCEL_TEAM_ID]. An empty dict is falsy, so
    [params or {}] replaces it, like [None], by a fresh one. *)
Definition scoped_params (params : option dict) : option dict :=
  if negb (String.eqb (VERCEL_TEAM_ID env) EmptyString) then
    let params := match params with
                  | Some ((_ :: _) as d) => d
                  | _ => []
                  end in
    Some (dict_set params "teamId" (JStr (VERCEL_TEAM_ID env)))
  else params.

Definition vercel_request (method endpoint : string)
           (data params : option dict) : M json :=
  emit (EvBackend method endpoint data params) ;;;
  let headers := [("Authorization", "Bearer " ++ VERCEL_TOKEN env);
                  ("Content-Type", "application/json")] in
  let url := BASE_URL ++ endpoint in
  let params := scoped_params params in
  try_except
    (if String.eqb method "GET" then
       response <- send (mkRequest "GET" url headers None params) ;;
       normalize response
     else if String.eqb method "POST" then
       response <- send (mkRequest "POST" url headers data params) ;;
       normalize response
     else if String.eqb method "PATCH" then
       response <- send (mkRequest "PATCH" url headers data params) ;;
       normalize response
     else if String.eqb method "DELETE" then
       response <- send (mkRequest "DELETE" url headers None params) ;;
       normalize response
     else if String.eqb method "PUT" then
       response <- send (mkRequest "PUT" url headers data params) ;;
       normalize response
     else
       ret (JObj [("error", JStr ("Unknown method: " ++ method))]))
    (fun e => ret (JObj [("error", JStr (exn_str e))])).

End Backend.

(** ** The Tool Registry *)

Definition tool (name description : string) (properties : dict)
           (required : list string) : json :=
  JObj [("name", JStr name);
        ("description", JStr description);
        ("inputSchema",
         JObj ([("type", JStr "object"); ("properties", JObj properties)]
               ++ match required with
                  | [] => []
                  | _ => [("required", JList (map JStr required))]
                  end)%list)].

Definition string_prop (description : string) : json :=
  JObj [("type", JStr "string"); ("description", JStr description)].

Definition TOOLS : list json :=
  [ tool "list_projects" "List all Vercel projects"
      [("limit", JObj [("type", JStr "integer"); ("default", JInt 20);
                       ("description", JStr "Max projects to return")])] [];
    tool "get_project" "Get details of a specific project"
      [("project_id", string_prop "Project ID or name")] ["project_id"];
    tool "create_project" "Create a new Vercel project"
      [("name", string_prop "Project name");
       ("framework", string_prop "Framework preset (nextjs, react, vue, etc.)");
       ("git_repository", JObj [("type", JStr "object");
                                ("description", JStr "Git repository config {type, repo}")])]
      ["name"];
    tool "delete_project" "Delete a Vercel project"
      [("project_id", string_prop "Project ID or name")] ["project_id"];
    tool "list_deployments" "List deployments for a project"
      [("project_id", string_prop "Project ID or name");
       ("limit", JObj [("type", JStr "integer"); ("default", JInt 10)]);
       ("state", JObj [("type", JStr "string");
                       ("enum", JList (map JStr ["BUILDING"; "ERROR"; "INITIALIZING";
                                                  "QUEUED"; "READY"; "CANCELED"]))])] [];
    tool "get_deployment" "Get details of a specific deployment"
      [("deployment_id", string_prop "Deployment ID or URL")] ["deployment_id"];
    tool "cancel_deployment" "Cancel a running deployment"
      [("deployment_id", string_prop "Deployment ID")] ["deployment_id"];
    tool "list_domains" "List all domains"
      [("limit", JObj [("type", JStr "integer"); ("default", JInt 20)])] [];
    tool "add_domain" "Add a domain to a project"
      [("project_id", string_prop "Project ID");
       ("domain", string_prop "Domain name to add")] ["project_id"; "domain"];
    tool "remove_domain" "Remove a domain from a project"
      [("project_id", string_prop "Project ID");
       ("domain", string_prop "Domain name to remove")] ["project_id"; "domain"];
    tool "list_env_vars" "List environment variables for a project"
      [("project_id", string_prop "Project ID")] ["project_id"];
    tool "create_env_var" "Create an environment variable"
      [("project_id", string_prop "Project ID");
       ("key", string_prop "Variable name");
       ("value", string_prop "Variable value");
       ("target", JObj [("type", JStr "array");
                        ("items", JObj [("type", JStr "string")]);
                        ("description", JStr "Targets: production, preview, development")])]
      ["project_id"; "key"; "value"];
    tool "delete_env_var" "Delete an environment variable"
      [("project_id", string_prop "Project ID");
       ("env_id", string_prop "Environment variable ID")] ["project_id"; "env_id"];
    tool "redeploy" "Trigger a redeployment of the latest deployment"
      [("deployment_id", string_prop "Deployment ID to redeploy")] ["deployment_id"];
    tool "get_user" "Get current authenticated user info" [] [] ].

(** The [name] of every entry of [TOOLS], in order. *)
Definition tool_names : list json :=
  flat_map (fun t => match t with
                     | JObj d => match dict_get d "name" with
                                 | Some n => [n]
                                 | None => []
                                 end
                     | _ => []
                     end) TOOLS.

(** ** The Tool Dispatcher *)

Definition text_content (s : string) : json :=
  JList [JObj [("type", JStr "text"); ("text", JStr s)]].

Definition default_target : json :=
  JList [JStr "production"; JStr "preview"; JStr "development"].

Section Dispatcher.
Variable env : Env.

(** Line 306, where every matched branch of the chain ends. *)
Definition respond (result : json) : M json :=
  ret (JObj [("content", text_content (Py.json_dumps result))]).

(** [if args.get(key): d[field] = args[key]] *)
Definition copy_if_truthy (args : json) (key field : string) (d : dict) : M dict :=
  probe <- py_get args key JNull ;;
  if Py.truthy probe then
    x <- py_getitem args key ;;
    ret (dict_set d field x)
  else ret d.

(** Lines 239-306: the body of the [try]. *)
Definition tool_body (name args : json) : M json :=
    (if Py.eq_str name "list_projects" then
       limit <- py_get args "limit" (JInt 20) ;;
       result <- vercel_request env "GET" "/v9/projects" None (Some [("limit", limit)]) ;;
       respond result
     else if Py.eq_str name "get_project" then
       project_id <- py_getitem args "project_id" ;;
       result <- vercel_request env "GET" ("/v9/projects/" ++ Py.str project_id) None None ;;
       respond result
     else if Py.eq_str name "create_project" then
       name' <- py_getitem args "name" ;;
       data <- copy_if_truthy args "framework" "framework" [("name", name')] ;;
       data <- copy_if_truthy args "git_repository" "gitRepository" data ;;
       result <- vercel_request env "POST" "/v10/projects" (Some data) None ;;
       respond result
     else if Py.eq_str name "delete_project" then
       project_id <- py_getitem args "project_id" ;;
       result <- vercel_request env "DELETE" ("/v9/projects/" ++ Py.str project_id) None None ;;
       respond result
     else if Py.eq_str name "list_deployments" then
       limit <- py_get args "limit" (JInt 10) ;;
       params <- copy_if_truthy args "project_id" "projectId" [("limit", limit)] ;;
       params <- copy_if_truthy args "state" "state" params ;;
       result <- vercel_request env "GET" "/v6/deployments" None (Some params) ;;
       respond result
     else if Py.eq_str name "get_deployment" then
       deployment_id <- py_getitem args "deployment_id" ;;
       result <- vercel_request env "GET" ("/v13/deployments/" ++ Py.str deployment_id) None None ;;
       respond result
     else if Py.eq_str name "cancel_deployment" then
       deployment_id <- py_getitem args "deployment_id" ;;
       result <- vercel_request env "PATCH"
                   ("/v12/deployments/" ++ Py.str deployment_id ++ "/cancel") None None ;;
       respond result
     else if Py.eq_str name "list_domains" then
       limit <- py_get args "limit" (JInt 20) ;;
       result <- vercel_request env "GET" "/v5/domains" None (Some [("limit", limit)]) ;;
       respond result
     else if Py.eq_str name "add_domain" then
       project_id <- py_getitem args "project_id" ;;
       domain <- py_getitem args "domain" ;;
       result <- vercel_request env "POST"
                   ("/v10/projects/" ++ Py.str project_id ++ "/domains")
                   (Some [("name", domain)]) None ;;
       respond result
     else if Py.eq_str name "remove_domain" then
       project_id <- py_getitem args "project_id" ;;
       domain <- py_getitem args "domain" ;;
       result <- vercel_request env "DELETE"
                   ("/v9/projects/" ++ Py.str project_id ++ "/domains/" ++ Py.str domain)
                   None None ;;
       respond result
     else if Py.eq_str name "list_env_vars" then
       project_id <- py_getitem args "project_id" ;;
       result <- vercel_request env "GET"
                   ("/v9/projects/" ++ Py.str project_id ++ "/env") None None ;;
       respond result
     else if Py.eq_str name "create_env_var" then
       key <- py_getitem args "key" ;;
       value <- py_getitem args "value" ;;
       target <- py_get args "target" default_target ;;
       let data := [("key", key); ("value", value); ("target", target);
                    ("type", JStr "encrypted")] in
       project_id <- py_getitem args "project_id" ;;
       result <- vercel_request env "POST"
                   ("/v10/projects/" ++ Py.str project_id ++ "/env") (Some data) None ;;
       respond result
     else if Py.eq_str name "delete_env_var" then
       project_id <- py_getitem args "project_id" ;;
       env_id <- py_getitem args "env_id" ;;
       result <- vercel_request env "DELETE"
                   ("/v9/projects/" ++ Py.str project_id ++ "/env/" ++ Py.str env_id)
                   None None ;;
       respond result
     else if Py.eq_str name "redeploy" then
       deployment_id <- py_getitem args "deployment_id" ;;
       result <- vercel_request env "POST" "/v13/deployments"
                   (Some [("deploymentId", deployment_id);
                          ("target", JStr "production")]) None ;;
       respond result
     else if Py.eq_str name "get_user" then
       result <- vercel_request env "GET" "/v2/user" None None ;;
       respond result
     else
       ret (JObj [("content", text_content ("Unknown tool: " ++ Py.str name));
                  ("isError", JBool true)])).

Definition handle_tool_call (name args : json) : M json :=
  try_except (tool_body name args)
    (fun e =>
       emit (EvLog ("Tool error " ++ Py.str name ++ ": " ++ exn_str e)) ;;;
       ret (JObj [("content", text_content ("Error: " ++ exn_str e));
                  ("isError", JBool true)])).

(** ** The MCP Protocol Adapter *)

Definition process_mcp_message (data : json) : M json :=
  method <- py_get data "method" (JStr EmptyString) ;;
  params <- py_get data "params" (JObj []) ;;
  request_id <- py_get data "id" (JInt 1) ;;
  if Py.eq_str method "initialize" then
    ret (JObj [("jsonrpc", JStr "2.0");
               ("id", request_id);
               ("result",
                JObj [("protocolVersion", JStr "2024-11-05");
                      ("capabilities",
                       JObj [("tools", JObj [("listChanged", JBool true)])]);
                      ("serverInfo",
                       JObj [("name", JStr "vercel-mcp");
                             ("version", JStr "1.0.0")])])])
  else if Py.eq_str method "tools/list" then
    ret (JObj [("jsonrpc", JStr "2.0"); ("id", request_id);
               ("result", JObj [("tools", JList TOOLS)])])
  else if Py.eq_str method "tools/call" then
    name <- py_get params "name" (JStr EmptyString) ;;
    arguments <- py_get params "arguments" (JObj []) ;;
    result <- handle_tool_call name arguments ;;
    ret (JObj [("jsonrpc", JStr "2.0"); ("id", request_id); ("result", result)])
  else if Py.eq_str method "notifications/initialized" then
    ret (JObj [("jsonrpc", JStr "2.0"); ("id", request_id); ("result", JObj [])])
  else
    ret (JObj [("jsonrpc", JStr "2.0"); ("id", request_id);
               ("error", JObj [("code", JInt (-32601));
                               ("message", JStr ("Method not found: " ++ Py.str method))])]).

(** The [/mcp] route. [body] is what [request.get_json()] does: the parsed
    body, or an exception. The answer is the JSON document handed to
    [jsonify] and the HTTP status (200 when the code gives none). *)
Definition mcp_handler (body : result json) : M (json * Z) :=
  try_except
    (data <- lift body ;;
     if negb (Py.truthy data) then
       ret (JObj [("jsonrpc", JStr "2.0"); ("id", JNull);
                  ("error", JObj [("code", JInt (-32700));
                                  ("message", JStr "Parse error")])], 400)
     else
       response <- process_mcp_message data ;;
       ret (response, 200))
    (fun e =>
       emit (EvLog ("MCP handler error: " ++ exn_str e)) ;;;
       ret (JObj [("jsonrpc", JStr "2.0"); ("id", JInt 1);
                  ("error", JObj [("code", JInt (-32603));
                                  ("message", JStr (exn_str e))])], 500)).

End Dispatcher.

(** ** The liveness route *)

Section Health.
Variable env : Env.

(** The [/] route: the document handed to [jsonify]. The conditional
    expression binds weaker than [+], so the dots are appended only to a
    configured identifier. *)
Definition health : json :=
  JObj [("status", JStr "healthy");
        ("service", JStr "vercel-mcp");
        ("version", JStr "1.0.0");
        ("tools", JInt (Z.of_nat (length TOOLS)));
        ("team_id",
         JStr (if negb (String.eqb (VERCEL_TEAM_ID env) EmptyString)
               then substring 0 8 (VERCEL_TEAM_ID env) ++ "..."
               else "not set"))].

End Health.

(** ** Vocabulary of the statements *)

(** The five verbs [vercel_request] knows. *)
Definition http_verbs : list string := ["GET"; "POST"; "PATCH"; "DELETE"; "PUT"].

(** A Failure of the Backend Client's transport: an exception, or a status
    outside the accepted set. *)
Definition failure_outcome (o : HttpOutcome) : Prop :=
  match o with
  | Failed _ => True
  | Responded r => status_in (status_code r) accepted_status = false
  end.

(** [v.get(k)] read off a result, for stating what a response contains. *)
Definition field (v : json) (k : string) : option json :=
  match v with
  | JObj d => dict_get d k
  | _ => None
  end.

Definition unknown_tool_result (name : json) : json :=
  JObj [("content", text_content ("Unknown tool: " ++ Py.str name));
        ("isError", JBool true)].

Definition error_result (e : exn) : json :=
  JObj [("content", text_content ("Error: " ++ exn_str e));
        ("isError", JBool true)].

Definition rpc_result (request_id result : json) : json :=
  JObj [("jsonrpc", JStr "2.0"); ("id", request_id); ("result", result)].

(** What the caller passed as query parameters, [None] read as no key. *)
Definition supplied (params : option dict) : dict :=
  match params with Some d => d | None => [] end.

(** What [vercel_request] makes of the transport's answer. *)
Definition backend_result (o : HttpOutcome) : json :=
  match o with
  | Failed e => JObj [("error", JStr (exn_str e))]
  | Responded r =>
      if status_in (status_code r) accepted_status then
        if Z.eqb (status_code r) 204 then JObj [("success", JBool true)]
        else match json_body r with
             | Ok j => j
             | Raise e => JObj [("error", JStr (exn_str e))]
             end
      else JObj [("error", JStr ("HTTP " ++ Py.dec (status_code r)));
                 ("details", JStr (substring 0 500 (text r)))]
  end.

(** ** The shape of a dispatch *)

(** The three ways the body of [handle_tool_call] ends: the name is not
    in the registry; argument shaping raised before anything was called;
    or the Backend Client was called once, with a known verb, and its
    result was serialised. *)
Inductive dispatched (env : Env) (name : json) : M json -> Prop :=
| DUnknown :
    ~ In name tool_names ->
    dispatched env name (Ok (unknown_tool_result name), [])
| DRaise (e : exn) :
    In name tool_names ->
    dispatched env name (Raise e, [])
| DBackend (method endpoint : string) (data params : option dict) (req : HttpRequest) :
    In name tool_names ->
    In method http_verbs ->
    query req = scoped_params env params ->
    vercel_request env method endpoint data params
    = (Ok (backend_result (transport env req)),
       [EvBackend method endpoint data params; EvHttp req]) ->
    dispatched env name
      (Ok (JObj [("content",
                  text_content (Py.json_dumps (backend_result (transport env req))))]),
       [EvBackend method endpoint data params; EvHttp req]).

Definition tool_error_log (name : json) (e : exn) : event :=
  EvLog ("Tool error " ++ Py.str name ++ ": " ++ exn_str e).

Definition serialized (payload : json) : json :=
  JObj [("content", text_content (Py.json_dumps payload))].

(** ** Concrete configurations and requests *)

(** An upstream that answers every request with [404 Not Found]. *)
Definition env_404 : Env :=
  mkEnv "token" EmptyString
        (fun _ => Responded (mkResponse 404 "Not Found"
                               (Raise (Exception "Expecting value: line 1 column 1 (char 0)")))).

Definition get_project_prj_1 : HttpRequest :=
  mkRequest "GET" "https://api.vercel.com/v9/projects/prj_1"
            [("Authorization", "Bearer token"); ("Content-Type", "application/json")]
            None None.

(** A request with positional [params] (a JSON array) and the id 7. *)
Definition positional_call : json :=
  JObj [("jsonrpc", JStr "2.0"); ("id", JInt 7); ("method", JStr "tools/call");
        ("params", JList [JStr "get_user"])].

(** An upstream that answers [203 Non-Authoritative Information] with an
    empty JSON object as body. *)
Definition env_203 : Env :=
  mkEnv "token" EmptyString (fun _ => Responded (mkResponse 203 "{}" (Ok (JObj [])))).

(** A configuration with a team, and a caller that passes its own
    [teamId] next to [limit]. *)
Definition env_team : Env :=
  mkEnv "token" "team_abc" (fun _ => Responded (mkResponse 200 "{}" (Ok (JObj [])))).

Definition scoped_list_projects : HttpRequest :=
  mkRequest "GET" "https://api.vercel.com/v9/projects"
            [("Authorization", "Bearer token"); ("Content-Type", "application/json")]
            None
            (Some [("teamId", JStr "team_abc"); ("limit", JInt 20)]).

(** ** Vocabulary of the further properties *)

(** The request the client builds for a call with one of its five verbs
    (lines 29-51): GET and DELETE are sent without [json=data]. *)
Definition outbound (env : Env) (method endpoint : string)
           (data params : option dict) : HttpRequest :=
  mkRequest method (BASE_URL ++ endpoint)
            [("Authorization", "Bearer " ++ VERCEL_TOKEN env);
             ("Content-Type", "application/json")]
            (if String.eqb method "GET" || String.eqb method "DELETE" then None else data)
            (scoped_params env params).

(** How every matched branch of the dispatcher ends: one call of the
    Backend Client, then line 306. *)
Definition call_backend (env : Env) (method endpoint : string)
           (data params : option dict) : M json :=
  result <- vercel_request env method endpoint data params ;; respond result.

(** [t["name"]] and [t["inputSchema"]["required"]] of a registry entry
    (no key when the schema declares none). *)
Definition tool_name (t : json) : json :=
  match field t "name" with Some n => n | None => JNull end.

Definition required_keys (t : json) : list string :=
  match field t "inputSchema" with
  | Some schema =>
      match field schema "required" with
      | Some (JList l) => flat_map (fun x => match x with JStr k => [k] | _ => [] end) l
      | _ => []
      end
  | None => []
  end.

(** The verb each branch of the dispatcher passes to the client. *)
Definition tool_verbs : list (string * string) :=
  [("list_projects", "GET"); ("get_project", "GET"); ("create_project", "POST");
   ("delete_project", "DELETE"); ("list_deployments", "GET"); ("get_deployment", "GET");
   ("cancel_deployment", "PATCH"); ("list_domains", "GET"); ("add_domain", "POST");
   ("remove_domain", "DELETE"); ("list_env_vars", "GET"); ("create_env_var", "POST");
   ("delete_env_var", "DELETE"); ("redeploy", "POST"); ("get_user", "GET")].

(** The tools whose name says they only read. *)
Definition read_tools : list json :=
  map JStr ["list_projects"; "get_project"; "list_deployments"; "get_deployment";
            "list_domains"; "list_env_vars"; "get_user"].

(** [isinstance(v, dict)] *)
Definition is_dict (v : json) : bool :=
  match v with JObj _ => true | _ => false end.

(** ** The built-ins on sample values *)

Example dec_samples :
  Py.dec 0 = "0" /\ Py.dec 404 = "404" /\ Py.dec (-32601) = "-32601".
Proof. repeat split. Qed.

Example str_samples :
  Py.str (JStr "get_user") = "get_user"
  /\ Py.str (JList [JStr "get_user"; JInt 1; JNull; JBool true]) = "['get_user', 1, None, True]"
  /\ Py.str (JObj [("a", JFloat "1.5")]) = "{'a': 1.5}"
  /\ exn_str (KeyError "project_id") = "'project_id'".
Proof. repeat split. Qed.

Example json_dumps_samples :
  Py.json_dumps (JObj []) = "{}"
  /\ Py.json_dumps (JList [JInt 1; JBool false; JNull])
     = Py.join (Py.chr Py.newline) ["["; "  1,"; "  false,"; "  null"; "]"]
  /\ Py.json_dumps (JStr (String (ascii_of_nat 233) "t" ++ Py.chr (ascii_of_nat 9)))
     = Py.chr Py.dquote ++ "\u00e9t\t" ++ Py.chr Py.dquote.
Proof. repeat split. Qed.

(** ** The registry *)

(** Fifteen tools, no name twice. *)
Example TOOLS_names :
  length TOOLS = 15%nat /\ length tool_names = 15%nat /\ NoDup tool_names.
Proof.
  split; [reflexivity|]. split; [reflexivity|].
  cbv [tool_names TOOLS flat_map tool dict_get String.eqb Ascii.eqb Bool.eqb app].
  repeat (constructor; [cbn [In]; intuition discriminate|]).
  constructor.
Qed.

(** ** Dictionaries *)

Lemma dict_get_set_same (d : dict) (k : string) (v : json) :
  dict_get (dict_set d k v) k = Some v.
Proof.
  induction d as [|[k' v'] d IH]; simpl.
  - now rewrite String.eqb_refl.
  - destruct (String.eqb k k') eqn:E; simpl; rewrite E; auto.
Qed.

Lemma dict_get_set_other (d : dict) (k k' : string) (v : json) :
  k' <> k -> dict_get (dict_set d k v) k' = dict_get d k'.
Proof.
  intros Hne. apply String.eqb_neq in Hne.
  induction d as [|[k0 v0] d IH]; simpl.
  - now rewrite Hne.
  - destruct (String.eqb k k0) eqn:E; simpl.
    + apply String.eqb_eq in E; subst k0. now rewrite Hne.
    + now rewrite IH.
Qed.

(** ** Laws of the monad *)

Lemma bind_ok {A B} (a : A) (k : A -> M B) : bind (Ok a, []) k = k a.
Proof. unfold bind. now destruct (k a). Qed.

Lemma bind_ok_trace {A B} (a : A) (t : list event) (k : A -> M B) :
  bind (Ok a, t) k = (fst (k a), (t ++ snd (k a))%list).
Proof. unfold bind. now destruct (k a). Qed.

Lemma bind_raise {A B} (e : exn) (t : list event) (k : A -> M B) :
  bind (Raise e, t) k = (Raise e, t).
Proof. reflexivity. Qed.

Lemma bind_emit {B} (ev : event) (k : unit -> M B) :
  bind (emit ev) k = (fst (k tt), ev :: snd (k tt)).
Proof. unfold bind, emit. now destruct (k tt). Qed.

Lemma py_getitem_cases (v : json) (k : string) :
  (exists x, py_getitem v k = (Ok x, [])) \/ (exists e, py_getitem v k = (Raise e, [])).
Proof.
  destruct v; simpl; try (right; eexists; reflexivity).
  destruct (dict_get fields k); [left | right]; eexists; reflexivity.
Qed.

Lemma py_get_cases (v : json) (k : string) (dflt : json) :
  (exists x, py_get v k dflt = (Ok x, [])) \/ (exists e, py_get v k dflt = (Raise e, [])).
Proof.
  destruct v; simpl; try (right; eexists; reflexivity).
  left; eexists; reflexivity.
Qed.

Lemma copy_if_truthy_cases (args : json) (key fld : string) (d : dict) :
  (exists d', copy_if_truthy args key fld d = (Ok d', []))
  \/ (exists e, copy_if_truthy args key fld d = (Raise e, [])).
Proof.
  unfold copy_if_truthy.
  destruct (py_get_cases args key JNull) as [[x ->]|[e ->]].
  - rewrite bind_ok. destruct (Py.truthy x).
    + destruct (py_getitem_cases args key) as [[y ->]|[e ->]].
      * rewrite bind_ok. left; eexists; reflexivity.
      * right; eexists; reflexivity.
    + left; eexists; reflexivity.
  - right; eexists; reflexivity.
Qed.

(** ** The Backend Client *)

Lemma send_normalize (env : Env) (req : HttpRequest) :
  try_except (response <- send env req ;; normalize response)
             (fun e => ret (JObj [("error", JStr (exn_str e))]))
  = (Ok (backend_result (transport env req)), [EvHttp req]).
Proof.
  unfold send. rewrite bind_emit.
  destruct (transport env req) as [r|e]; cbn [fst snd ret raise]; [|reflexivity].
  rewrite bind_ok_trace. unfold normalize, backend_result.
  destruct (status_in (status_code r) accepted_status); [|reflexivity].
  destruct (Z.eqb (status_code r) 204); [reflexivity|].
  unfold lift. now destruct (json_body r).
Qed.

(** With a known verb the client sends exactly one request, to the base
    URL joined with the endpoint, with the team-scoped query parameters,
    and never raises. *)
Lemma vercel_request_known (env : Env) (method endpoint : string)
      (data params : option dict) :
  In method http_verbs ->
  exists req,
    verb req = method /\
    url req = BASE_URL ++ endpoint /\
    query req = scoped_params env params /\
    vercel_request env method endpoint data params
    = (Ok (backend_result (transport env req)),
       [EvBackend method endpoint data params; EvHttp req]).
Proof.
  intros Hm. unfold vercel_request. rewrite bind_emit.
  simpl in Hm.
  destruct Hm as [<-|[<-|[<-|[<-|[<-|[]]]]]]; cbn [String.eqb Ascii.eqb Bool.eqb];
    rewrite send_normalize; eexists; (repeat split); reflexivity.
Qed.

(** With any other verb nothing is sent. *)
Lemma vercel_request_unknown (env : Env) (method endpoint : string)
      (data params : option dict) :
  ~ In method http_verbs ->
  vercel_request env method endpoint data params
  = (Ok (JObj [("error", JStr ("Unknown method: " ++ method))]),
     [EvBackend method endpoint data params]).
Proof.
  intros Hn. unfold vercel_request. rewrite bind_emit.
  assert (H : forall v, In v http_verbs -> String.eqb method v = false).
  { intros v Hv. apply String.eqb_neq. intros ->. auto. }
  rewrite !H by (simpl; tauto). reflexivity.
Qed.

(** ** The dispatcher, case by case *)

Lemma eq_str_true (v : json) (lit : string) : Py.eq_str v lit = true -> v = JStr lit.
Proof.
  destruct v; simpl; try discriminate.
  intros H. apply String.eqb_eq in H. now subst.
Qed.

Lemma call_then_respond (env : Env) (name : json) (method endpoint : string)
      (data params : option dict) :
  In name tool_names ->
  In method http_verbs ->
  dispatched env name
    (result <- vercel_request env method endpoint data params ;; respond result).
Proof.
  intros Hn Hm.
  destruct (vercel_request_known env method endpoint data params Hm)
    as (req & _ & _ & Hq & Hreq).
  rewrite Hreq, bind_ok_trace. unfold respond. cbn [fst snd ret app].
  now apply DBackend.
Qed.

Ltac in_list := cbv; tauto.

Ltac shape_step :=
  lazymatch goal with
  | |- dispatched _ _ (bind (py_getitem ?a ?k) _) =>
      destruct (py_getitem_cases a k) as [[? ->]|[? ->]];
      [rewrite bind_ok | rewrite bind_raise; apply DRaise; in_list]
  | |- dispatched _ _ (bind (py_get ?a ?k ?d) _) =>
      destruct (py_get_cases a k d) as [[? ->]|[? ->]];
      [rewrite bind_ok | rewrite bind_raise; apply DRaise; in_list]
  | |- dispatched _ _ (bind (copy_if_truthy ?a ?k ?f ?d) _) =>
      destruct (copy_if_truthy_cases a k f d) as [[? ->]|[? ->]];
      [rewrite bind_ok | rewrite bind_raise; apply DRaise; in_list]
  | |- dispatched _ _ (bind (vercel_request _ _ _ _ _) _) =>
      apply call_then_respond; in_list
  end.

Lemma tool_body_dispatched (env : Env) (name args : json) :
  dispatched env name (tool_body env name args).
Proof.
  unfold tool_body.
  repeat lazymatch goal with
  | |- dispatched _ _ (if Py.eq_str name ?lit then _ else _) =>
      let E := fresh "E" in
      destruct (Py.eq_str name lit) eqn:E;
      [ apply eq_str_true in E; subst name; repeat shape_step | ]
  end.
  apply DUnknown. intros H. cbv in H.
  repeat (destruct H as [H|H]; [subst name; cbv in *; discriminate|]).
  exact H.
Qed.

(** [handle_tool_call] itself: the three cases of its body, seen through
    the [except] clause. *)
Lemma handle_tool_call_cases (env : Env) (name args : json) :
  (~ In name tool_names /\
   tool_body env name args = (Ok (unknown_tool_result name), []) /\
   handle_tool_call env name args = (Ok (unknown_tool_result name), []))
  \/
  (In name tool_names /\
   exists e,
     tool_body env name args = (Raise e, []) /\
     handle_tool_call env name args = (Ok (error_result e), [tool_error_log name e]))
  \/
  (In name tool_names /\
   exists method endpoint data params req,
     In method http_verbs /\
     query req = scoped_params env params /\
     vercel_request env method endpoint data params
     = (Ok (backend_result (transport env req)),
        [EvBackend method endpoint data params; EvHttp req]) /\
     tool_body env name args
     = (Ok (serialized (backend_result (transport env req))),
        [EvBackend method endpoint data params; EvHttp req]) /\
     handle_tool_call env name args
     = (Ok (serialized (backend_result (transport env req))),
        [EvBackend method endpoint data params; EvHttp req])).
Proof.
  unfold handle_tool_call.
  pose proof (tool_body_dispatched env name args) as H.
  remember (tool_body env name args) as b eqn:Hb.
  destruct H as [Hn | e Hn | method endpoint data params req Hn Hm Hq Hreq].
  - left. auto.
  - right; left. split; [exact Hn|]. exists e. split; reflexivity.
  - right; right. split; [exact Hn|].
    exists method, endpoint, data, params, req. repeat split; auto.
Qed.

(** A failed transport makes the Backend Client return a dict whose
    [error] key holds the message. *)
Lemma failure_payload (o : HttpOutcome) :
  failure_outcome o ->
  exists payload msg,
    backend_result o = JObj payload /\ dict_get payload "error" = Some (JStr msg).
Proof.
  destruct o as [r|e]; simpl.
  - intros ->. eexists; eexists; split; reflexivity.
  - intros _. eexists; eexists; split; reflexivity.
Qed.

(** ** The properties of the specification *)

(** C1. Whenever a dispatch reached the network and the transport failed
    there (an exception, or a status outside the accepted set), the name
    is one of the registry, the Backend Client was invoked exactly once and
    returned a dict with an [error] key, and [handle_tool_call] returns
    exactly [{content: [{type: text, text: json.dumps(that dict)}]}]: one
    text item, and no [isError] key. *)
Theorem upstream_failure_is_content (env : Env) (name args : json) (req : HttpRequest) :
  In req (http_requests (snd (handle_tool_call env name args))) ->
  failure_outcome (transport env req) ->
  exists method endpoint data params payload msg v,
    In name tool_names /\
    backend_calls (snd (handle_tool_call env name args))
    = [EvBackend method endpoint data params] /\
    fst (vercel_request env method endpoint data params) = Ok (JObj payload) /\
    dict_get payload "error" = Some (JStr msg) /\
    fst (handle_tool_call env name args) = Ok v /\
    v = JObj [("content",
               JList [JObj [("type", JStr "text");
                            ("text", JStr (Py.json_dumps (JObj payload)))]])] /\
    field v "isError" = None.
Proof.
  intros Hin Hfail.
  destruct (handle_tool_call_cases env name args)
    as [(_ & _ & H) | [(_ & e & _ & H) | (Hn & m & ep & d & p & req0 & _ & _ & Hv & _ & H)]];
    rewrite H in *; cbn in Hin; try contradiction.
  destruct Hin as [<-|[]].
  destruct (failure_payload _ Hfail) as (payload & msg & Hp & Herr).
  exists m, ep, d, p, payload, msg. eexists.
  rewrite Hv, Hp. cbn [fst snd backend_calls filter].
  repeat split; auto.
Qed.

Lemma upstream_failure_is_content_witness :
  exists method endpoint data params payload msg v,
    In (JStr "get_project") tool_names /\
    backend_calls
      (snd (handle_tool_call env_404 (JStr "get_project") (JObj [("project_id", JStr "prj_1")])))
    = [EvBackend method endpoint data params] /\
    fst (vercel_request env_404 method endpoint data params) = Ok (JObj payload) /\
    dict_get payload "error" = Some (JStr msg) /\
    fst (handle_tool_call env_404 (JStr "get_project") (JObj [("project_id", JStr "prj_1")]))
    = Ok v /\
    v = JObj [("content",
               JList [JObj [("type", JStr "text");
                            ("text", JStr (Py.json_dumps (JObj payload)))]])] /\
    field v "isError" = None.
Proof.
  apply (upstream_failure_is_content env_404 (JStr "get_project")
           (JObj [("project_id", JStr "prj_1")]) get_project_prj_1).
  - vm_compute. left. reflexivity.
  - vm_compute. reflexivity.
Defined.

(** The example of the specification: [get_project] against a 404. The
    text is the two-key failure dict as [json.dumps(..., indent=2)] lays
    it out. *)
Example get_project_404 :
  handle_tool_call env_404 (JStr "get_project") (JObj [("project_id", JStr "prj_1")])
  = (Ok (JObj [("content",
                JList [JObj [("type", JStr "text");
                             ("text",
                              JStr (Py.join (Py.chr Py.newline)
                                      ["{";
                                       "  " ++ Py.encode_basestring_ascii "error" ++ ": "
                                            ++ Py.encode_basestring_ascii "HTTP 404" ++ ",";
                                       "  " ++ Py.encode_basestring_ascii "details" ++ ": "
                                            ++ Py.encode_basestring_ascii "Not Found";
                                       "}"]))]])]),
     [EvBackend "GET" "/v9/projects/prj_1" None None; EvHttp get_project_prj_1]).
Proof. vm_compute. reflexivity. Qed.

(** C2, as the code has it. An exception raised while the arguments are
    shaped is caught by the [except] clause and rendered as
    [{content: [{type: text, text: "Error: " + str(e)}], isError: true}];
    the only effect is the log record, so the Backend Client is not
    invoked; [get_project] with no argument is such a case. [isError] is
    set on this path and on the unknown-tool path, and on no other. *)
Theorem shaping_exception_is_isError (env : Env) (name args : json) :
  (forall e,
      fst (tool_body env name args) = Raise e ->
      handle_tool_call env name args
      = (Ok (JObj [("content",
                    JList [JObj [("type", JStr "text");
                                 ("text", JStr ("Error: " ++ exn_str e))]]);
                   ("isError", JBool true)]),
         [EvLog ("Tool error " ++ Py.str name ++ ": " ++ exn_str e)])
      /\ backend_calls (snd (handle_tool_call env name args)) = [])
  /\
  handle_tool_call env (JStr "get_project") (JObj [])
  = (Ok (JObj [("content",
                JList [JObj [("type", JStr "text");
                             ("text", JStr "Error: 'project_id'")]]);
               ("isError", JBool true)]),
     [EvLog "Tool error get_project: 'project_id'"])
  /\
  (forall v,
      fst (handle_tool_call env name args) = Ok v ->
      field v "isError" <> None ->
      (exists e, fst (tool_body env name args) = Raise e) \/ ~ In name tool_names).
Proof.
  split; [|split].
  - intros e He.
    destruct (handle_tool_call_cases env name args)
      as [(_ & Hb & _) | [(_ & e' & Hb & H) | (_ & m & ep & d & p & req & _ & _ & _ & Hb & _)]];
      rewrite Hb in He; cbn in He; try discriminate.
    injection He as <-. rewrite H. split; reflexivity.
  - reflexivity.
  - intros v Hv Hset.
    destruct (handle_tool_call_cases env name args)
      as [(Hn & _ & _) | [(_ & e' & Hb & _) | (_ & m & ep & d & p & req & _ & _ & _ & _ & H)]].
    + right. exact Hn.
    + left. exists e'. now rewrite Hb.
    + rewrite H in Hv. cbn in Hv. injection Hv as <-. now elim Hset.
Qed.

Lemma shaping_exception_is_isError_witness :
  (handle_tool_call env_404 (JStr "add_domain") (JObj [("project_id", JStr "prj_1")])
   = (Ok (JObj [("content",
                 JList [JObj [("type", JStr "text");
                              ("text", JStr ("Error: " ++ exn_str (KeyError "domain")))]]);
                ("isError", JBool true)]),
      [EvLog ("Tool error " ++ Py.str (JStr "add_domain") ++ ": " ++ exn_str (KeyError "domain"))])
   /\ backend_calls
        (snd (handle_tool_call env_404 (JStr "add_domain") (JObj [("project_id", JStr "prj_1")])))
      = [])
  /\ ((exists e, fst (tool_body env_404 (JStr "deploy") (JObj [])) = Raise e)
      \/ ~ In (JStr "deploy") tool_names).
Proof.
  split.
  - apply (proj1 (shaping_exception_is_isError env_404 (JStr "add_domain")
                    (JObj [("project_id", JStr "prj_1")])) (KeyError "domain")).
    vm_compute. reflexivity.
  - apply (proj2 (proj2 (shaping_exception_is_isError env_404 (JStr "deploy") (JObj [])))
             _ eq_refl).
    cbn. discriminate.
Defined.

(** C2 as stated fails: an unknown tool name sets [isError] although no
    exception was raised anywhere. *)
Lemma isError_without_exception :
  tool_body env_404 (JStr "unknown_tool") (JObj [])
  = (Ok (JObj [("content",
                JList [JObj [("type", JStr "text");
                             ("text", JStr "Unknown tool: unknown_tool")]]);
               ("isError", JBool true)]), [])
  /\ (forall e, fst (tool_body env_404 (JStr "unknown_tool") (JObj [])) <> Raise e)
  /\ exists v,
       fst (handle_tool_call env_404 (JStr "unknown_tool") (JObj [])) = Ok v
       /\ field v "isError" = Some (JBool true).
Proof.
  split; [reflexivity|]. split.
  - intros e. cbn. discriminate.
  - eexists. split; reflexivity.
Qed.

(** [handle_tool_call] always returns. *)
Lemma handle_tool_call_returns (env : Env) (name args : json) :
  exists v tr, handle_tool_call env name args = (Ok v, tr).
Proof.
  destruct (handle_tool_call_cases env name args)
    as [(_ & _ & H) | [(_ & e & _ & H) | (_ & m & ep & d & p & req & _ & _ & _ & _ & H)]];
    rewrite H; do 2 eexists; reflexivity.
Qed.

(** What [tools/call] does once [params] is known to be a dict. *)
Lemma process_tools_call (env : Env) (d p : dict) :
  dict_get_default d "method" (JStr EmptyString) = JStr "tools/call" ->
  dict_get_default d "params" (JObj []) = JObj p ->
  process_mcp_message env (JObj d)
  = (result <- handle_tool_call env (dict_get_default p "name" (JStr EmptyString))
                                (dict_get_default p "arguments" (JObj [])) ;;
     ret (rpc_result (dict_get_default d "id" (JInt 1)) result)).
Proof.
  intros Hm Hp. unfold process_mcp_message.
  cbn [py_get]. unfold ret at 1 2 3. rewrite !bind_ok, Hm, Hp.
  cbn [Py.eq_str String.eqb Ascii.eqb Bool.eqb py_get].
  unfold ret at 1 2. now rewrite !bind_ok.
Qed.

(** C3. A name that is not in the registry is answered, whatever the
    arguments, by [{content: [{type: text, text: "Unknown tool: <name>"}],
    isError: true}] with an empty trace (so no Backend Client invocation),
    and a [tools/call] message carrying that name gets this value as the
    [result] of an ordinary JSON-RPC response: the envelope has the keys
    [jsonrpc], [id] and [result], and no [error]. *)
Theorem unknown_tool_is_result (env : Env) (name args : json) :
  ~ In name tool_names ->
  handle_tool_call env name args
  = (Ok (JObj [("content",
                JList [JObj [("type", JStr "text");
                             ("text", JStr ("Unknown tool: " ++ Py.str name))]]);
               ("isError", JBool true)]), [])
  /\
  forall d p,
    dict_get_default d "method" (JStr EmptyString) = JStr "tools/call" ->
    dict_get_default d "params" (JObj []) = JObj p ->
    dict_get_default p "name" (JStr EmptyString) = name ->
    process_mcp_message env (JObj d)
    = (Ok (JObj [("jsonrpc", JStr "2.0");
                 ("id", dict_get_default d "id" (JInt 1));
                 ("result",
                  JObj [("content",
                         JList [JObj [("type", JStr "text");
                                      ("text", JStr ("Unknown tool: " ++ Py.str name))]]);
                        ("isError", JBool true)])]), []).
Proof.
  intros Hn.
  assert (H : forall a, handle_tool_call env name a = (Ok (unknown_tool_result name), [])).
  { intros a.
    destruct (handle_tool_call_cases env name a)
      as [(_ & _ & H) | [(Hin & _) | (Hin & _)]]; [exact H | contradiction | contradiction]. }
  split; [apply H|].
  intros d p Hm Hp Hname.
  rewrite (process_tools_call env d p Hm Hp), Hname, H, bind_ok.
  reflexivity.
Qed.

Lemma unknown_tool_is_result_witness :
  handle_tool_call env_404 (JStr "unknown_tool") (JObj [])
  = (Ok (JObj [("content",
                JList [JObj [("type", JStr "text");
                             ("text", JStr ("Unknown tool: " ++ Py.str (JStr "unknown_tool")))]]);
               ("isError", JBool true)]), []).
Proof.
  apply (unknown_tool_is_result env_404 (JStr "unknown_tool") (JObj [])).
  cbv. intros H.
  repeat (destruct H as [H|H]; [discriminate H|]). exact H.
Defined.

(** C9. [handle_tool_call] returns a value on every name and every
    arguments value (of any JSON type), never an exception, and what it
    returns has a [content] list of exactly one item, of type [text], whose
    [text] is a string. *)
Theorem handle_tool_call_total (env : Env) (name args : json) :
  exists v tr s,
    handle_tool_call env name args = (Ok v, tr) /\
    field v "content" = Some (JList [JObj [("type", JStr "text"); ("text", JStr s)]]).
Proof.
  destruct (handle_tool_call_cases env name args)
    as [(_ & _ & H) | [(_ & e & _ & H) | (_ & m & ep & d & p & req & _ & _ & _ & _ & H)]];
    rewrite H; do 3 eexists; split; reflexivity.
Qed.

(** C10. A [tools/call] message whose [params] is a dict without [name]
    is dispatched with the empty string as tool name: the answer is the
    JSON-RPC result [{content: [{type: text, text: "Unknown tool: "}],
    isError: true}], there is no [error] member, and the trace is empty
    (no Backend Client invocation). *)
Theorem tools_call_without_name (env : Env) (d p : dict) :
  dict_get d "method" = Some (JStr "tools/call") ->
  dict_get_default d "params" (JObj []) = JObj p ->
  dict_get p "name" = None ->
  process_mcp_message env (JObj d)
  = (Ok (JObj [("jsonrpc", JStr "2.0");
               ("id", dict_get_default d "id" (JInt 1));
               ("result",
                JObj [("content",
                       JList [JObj [("type", JStr "text");
                                    ("text", JStr "Unknown tool: ")]]);
                      ("isError", JBool true)])]), []).
Proof.
  intros Hm Hp Hname.
  assert (Hm' : dict_get_default d "method" (JStr EmptyString) = JStr "tools/call")
    by (unfold dict_get_default; now rewrite Hm).
  assert (Hn' : dict_get_default p "name" (JStr EmptyString) = JStr EmptyString)
    by (unfold dict_get_default; now rewrite Hname).
  rewrite (process_tools_call env d p Hm' Hp), Hn'.
  reflexivity.
Qed.

Lemma tools_call_without_name_witness :
  process_mcp_message env_404
    (JObj [("jsonrpc", JStr "2.0"); ("id", JInt 3); ("method", JStr "tools/call");
           ("params", JObj [("arguments", JObj [("project_id", JStr "prj_1")])])])
  = (Ok (JObj [("jsonrpc", JStr "2.0");
               ("id", JInt 3);
               ("result",
                JObj [("content",
                       JList [JObj [("type", JStr "text");
                                    ("text", JStr "Unknown tool: ")]]);
                      ("isError", JBool true)])]), []).
Proof.
  apply (tools_call_without_name env_404
           [("jsonrpc", JStr "2.0"); ("id", JInt 3); ("method", JStr "tools/call");
            ("params", JObj [("arguments", JObj [("project_id", JStr "prj_1")])])]
           [("arguments", JObj [("project_id", JStr "prj_1")])]);
    reflexivity.
Defined.

(** C5. [process_mcp_message] on a request dict: [initialize] gives the
    fixed descriptor, [tools/list] the registry, [tools/call] (with
    [params] absent or a dict) the dispatcher's value as [result],
    [notifications/initialized] an empty [result]; every other value of
    [method], a string or not, gives the JSON-RPC error
    [{code: -32601, message: "Method not found: <method>"}]. Only
    [tools/call] has any effect. *)
Theorem process_mcp_message_routes (env : Env) (d : dict) :
  let method := dict_get_default d "method" (JStr EmptyString) in
  let request_id := dict_get_default d "id" (JInt 1) in
  (method = JStr "initialize" ->
   process_mcp_message env (JObj d)
   = (Ok (JObj [("jsonrpc", JStr "2.0"); ("id", request_id);
                ("result",
                 JObj [("protocolVersion", JStr "2024-11-05");
                       ("capabilities", JObj [("tools", JObj [("listChanged", JBool true)])]);
                       ("serverInfo", JObj [("name", JStr "vercel-mcp");
                                            ("version", JStr "1.0.0")])])]), []))
  /\
  (method = JStr "tools/list" ->
   process_mcp_message env (JObj d)
   = (Ok (JObj [("jsonrpc", JStr "2.0"); ("id", request_id);
                ("result", JObj [("tools", JList TOOLS)])]), []))
  /\
  (method = JStr "tools/call" ->
   forall p, dict_get_default d "params" (JObj []) = JObj p ->
   exists result tr,
     handle_tool_call env (dict_get_default p "name" (JStr EmptyString))
                          (dict_get_default p "arguments" (JObj []))
     = (Ok result, tr) /\
     process_mcp_message env (JObj d)
     = (Ok (JObj [("jsonrpc", JStr "2.0"); ("id", request_id); ("result", result)]), tr))
  /\
  (method = JStr "notifications/initialized" ->
   process_mcp_message env (JObj d)
   = (Ok (JObj [("jsonrpc", JStr "2.0"); ("id", request_id); ("result", JObj [])]), []))
  /\
  (method <> JStr "initialize" -> method <> JStr "tools/list" ->
   method <> JStr "tools/call" -> method <> JStr "notifications/initialized" ->
   process_mcp_message env (JObj d)
   = (Ok (JObj [("jsonrpc", JStr "2.0"); ("id", request_id);
                ("error", JObj [("code", JInt (-32601));
                                ("message", JStr ("Method not found: " ++ Py.str method))])]),
      [])).
Proof.
  cbv zeta.
  repeat split.
  - intros Hm. unfold process_mcp_message. cbn [py_get]. unfold ret at 1 2 3.
    rewrite !bind_ok, Hm. reflexivity.
  - intros Hm. unfold process_mcp_message. cbn [py_get]. unfold ret at 1 2 3.
    rewrite !bind_ok, Hm. reflexivity.
  - intros Hm p Hp.
    destruct (handle_tool_call_returns env (dict_get_default p "name" (JStr EmptyString))
                (dict_get_default p "arguments" (JObj []))) as (v & tr & Hv).
    exists v, tr. split; [exact Hv|].
    rewrite (process_tools_call env d p Hm Hp), Hv, bind_ok_trace.
    cbn [fst snd ret]. now rewrite app_nil_r.
  - intros Hm. unfold process_mcp_message. cbn [py_get]. unfold ret at 1 2 3.
    rewrite !bind_ok, Hm. reflexivity.
  - intros H1 H2 H3 H4. unfold process_mcp_message. cbn [py_get]. unfold ret at 1 2 3.
    rewrite !bind_ok.
    assert (F : forall lit, dict_get_default d "method" (JStr EmptyString) <> JStr lit ->
                            Py.eq_str (dict_get_default d "method" (JStr EmptyString)) lit = false).
    { intros lit Hne. destruct (Py.eq_str _ lit) eqn:E; [|reflexivity].
      apply eq_str_true in E. contradiction. }
    rewrite !F by assumption. reflexivity.
Qed.

Lemma process_mcp_message_routes_witness :
  process_mcp_message env_404 (JObj [("method", JStr "bogus")])
  = (Ok (JObj [("jsonrpc", JStr "2.0"); ("id", JInt 1);
               ("error", JObj [("code", JInt (-32601));
                               ("message", JStr "Method not found: bogus")])]), [])
  /\ process_mcp_message env_404 (JObj [("id", JStr "a"); ("method", JStr "tools/list")])
     = (Ok (JObj [("jsonrpc", JStr "2.0"); ("id", JStr "a");
                  ("result", JObj [("tools", JList TOOLS)])]), [])
  /\ exists result tr,
       handle_tool_call env_404 (JStr "get_user") (JObj []) = (Ok result, tr) /\
       process_mcp_message env_404
         (JObj [("id", JInt 2); ("method", JStr "tools/call");
                ("params", JObj [("name", JStr "get_user")])])
       = (Ok (JObj [("jsonrpc", JStr "2.0"); ("id", JInt 2); ("result", result)]), tr).
Proof.
  split; [|split].
  - apply (proj2 (proj2 (proj2 (proj2
             (process_mcp_message_routes env_404 [("method", JStr "bogus")])))));
      discriminate.
  - apply (proj1 (proj2
             (process_mcp_message_routes env_404
                [("id", JStr "a"); ("method", JStr "tools/list")]))).
    reflexivity.
  - apply (proj1 (proj2 (proj2
             (process_mcp_message_routes env_404
                [("id", JInt 2); ("method", JStr "tools/call");
                 ("params", JObj [("name", JStr "get_user")])])))
             eq_refl [("name", JStr "get_user")] eq_refl).
Defined.

(** C6 as stated fails: the request has the id 7, an exception escapes
    message processing ([params] is a list, which has no [get]), and the
    -32603 response carries the id 1. *)
Lemma internal_error_id_not_echoed :
  field positional_call "id" = Some (JInt 7)
  /\ fst (process_mcp_message env_404 positional_call)
     = Raise (AttributeError "'list' object has no attribute 'get'")
  /\ mcp_handler env_404 (Ok positional_call)
     = (Ok (JObj [("jsonrpc", JStr "2.0"); ("id", JInt 1);
                  ("error", JObj [("code", JInt (-32603));
                                  ("message", JStr "'list' object has no attribute 'get'")])],
            500),
        [EvLog "MCP handler error: 'list' object has no attribute 'get'"]).
Proof. repeat split. Qed.

(** Every response of [process_mcp_message] has the shape
    [{jsonrpc, id, result | error}] with the request's id. *)
Lemma process_mcp_message_id (env : Env) (d : dict) (resp : json) (tr : list event) :
  process_mcp_message env (JObj d) = (Ok resp, tr) ->
  field resp "id" = Some (dict_get_default d "id" (JInt 1)).
Proof.
  unfold process_mcp_message. cbn [py_get]. unfold ret at 1 2 3. rewrite !bind_ok.
  repeat match goal with
         | |- (if ?c then _ else _) = _ -> _ => destruct c
         end;
    try (intros H; injection H as <- _; reflexivity).
  destruct (py_get_cases (dict_get_default d "params" (JObj [])) "name" (JStr EmptyString))
    as [[x ->]|[e ->]]; [rewrite bind_ok | rewrite bind_raise; discriminate].
  destruct (py_get_cases (dict_get_default d "params" (JObj [])) "arguments" (JObj []))
    as [[y ->]|[e ->]]; [rewrite bind_ok | rewrite bind_raise; discriminate].
  destruct (handle_tool_call_returns env x y) as (v & t & ->).
  rewrite bind_ok_trace. cbn [fst snd ret].
  intros H; injection H as <- _; reflexivity.
Qed.

(** C6, as the code has it. Every response [process_mcp_message] produces
    carries the id of the request, or 1 when the request has no [id]; and
    [mcp_handler] passes that response on unchanged with status 200. When
    an exception escapes message processing, [mcp_handler] answers 500
    with code -32603 and the fixed id 1, whatever id the request had. *)
Theorem response_id (env : Env) :
  (forall d resp tr,
      process_mcp_message env (JObj d) = (Ok resp, tr) ->
      field resp "id" = Some (dict_get_default d "id" (JInt 1))
      /\ (Py.truthy (JObj d) = true -> mcp_handler env (Ok (JObj d)) = (Ok (resp, 200), tr)))
  /\
  (forall data e,
      Py.truthy data = true ->
      fst (process_mcp_message env data) = Raise e ->
      exists tr,
        mcp_handler env (Ok data)
        = (Ok (JObj [("jsonrpc", JStr "2.0"); ("id", JInt 1);
                     ("error", JObj [("code", JInt (-32603));
                                     ("message", JStr (exn_str e))])], 500), tr)).
Proof.
  split.
  - intros d resp tr H. split; [exact (process_mcp_message_id env d resp tr H)|].
    intros Ht. unfold mcp_handler, lift. rewrite bind_ok, Ht. cbn [negb].
    rewrite H, bind_ok_trace. cbn [fst snd ret try_except]. now rewrite app_nil_r.
  - intros data e Ht He. unfold mcp_handler, lift. rewrite bind_ok, Ht. cbn [negb].
    destruct (process_mcp_message env data) as [r t]. cbn in He. subst r.
    rewrite bind_raise. unfold try_except. rewrite bind_emit.
    eexists. reflexivity.
Qed.

Lemma response_id_witness :
  (field (JObj [("jsonrpc", JStr "2.0"); ("id", JInt 7); ("result", JObj [])]) "id"
   = Some (JInt 7)
   /\ mcp_handler env_404 (Ok (JObj [("id", JInt 7); ("method", JStr "notifications/initialized")]))
      = (Ok (JObj [("jsonrpc", JStr "2.0"); ("id", JInt 7); ("result", JObj [])], 200), []))
  /\ exists tr,
       mcp_handler env_404 (Ok positional_call)
       = (Ok (JObj [("jsonrpc", JStr "2.0"); ("id", JInt 1);
                    ("error", JObj [("code", JInt (-32603));
                                    ("message",
                                     JStr (exn_str (AttributeError
                                                      "'list' object has no attribute 'get'")))])],
              500), tr).
Proof.
  split.
  - destruct (proj1 (response_id env_404)
                [("id", JInt 7); ("method", JStr "notifications/initialized")]
                (JObj [("jsonrpc", JStr "2.0"); ("id", JInt 7); ("result", JObj [])]) []
                eq_refl) as [Hid Hpass].
    split; [exact Hid | exact (Hpass eq_refl)].
  - exact (proj2 (response_id env_404) positional_call
             (AttributeError "'list' object has no attribute 'get'") eq_refl eq_refl).
Defined.

Lemma status_in_spec (code : Z) (l : list Z) : status_in code l = true <-> In code l.
Proof.
  unfold status_in. rewrite existsb_exists. split.
  - intros (x & Hx & E). apply Z.eqb_eq in E. now subst.
  - intros H. exists code. split; [exact H | apply Z.eqb_refl].
Qed.

(** C4 as stated fails: 203 is a 2xx status other than 204, its body
    parses, and the client returns a failure, not the parsed body. *)
Lemma status_203_is_failure :
  200 <= 203 < 300
  /\ fst (vercel_request env_203 "GET" "/v2/user" None None)
     = Ok (JObj [("error", JStr "HTTP 203"); ("details", JStr "{}")])
  /\ fst (vercel_request env_203 "GET" "/v2/user" None None) <> Ok (JObj []).
Proof.
  split; [lia|]. split; [reflexivity|]. cbn. discriminate.
Qed.

(** C4, as the code has it. With one of its five verbs the client sends
    one request and never raises: status 204 gives [{"success": true}];
    the other accepted statuses, 200, 201 and 202, give the parsed body;
    every status outside [200, 201, 202, 204] gives the failure
    [{"error": "HTTP <code>", "details": <first 500 characters of the
    body>}]; an exception of the transport gives the failure [{"error":
    str(e)}], which has no other key and so no status code. *)
Theorem vercel_request_normalizes (env : Env) (method endpoint : string)
        (data params : option dict) :
  In method http_verbs ->
  exists req,
    http_requests (snd (vercel_request env method endpoint data params)) = [req] /\
    (forall r, transport env req = Responded r ->
               status_code r = 204 ->
               fst (vercel_request env method endpoint data params)
               = Ok (JObj [("success", JBool true)])) /\
    (forall r j, transport env req = Responded r ->
                 In (status_code r) [200; 201; 202] ->
                 json_body r = Ok j ->
                 fst (vercel_request env method endpoint data params) = Ok j) /\
    (forall r, transport env req = Responded r ->
               ~ In (status_code r) [200; 201; 202; 204] ->
               fst (vercel_request env method endpoint data params)
               = Ok (JObj [("error", JStr ("HTTP " ++ Py.dec (status_code r)));
                           ("details", JStr (substring 0 500 (text r)))])) /\
    (forall e, transport env req = Failed e ->
               fst (vercel_request env method endpoint data params)
               = Ok (JObj [("error", JStr (exn_str e))])).
Proof.
  intros Hm.
  destruct (vercel_request_known env method endpoint data params Hm)
    as (req & _ & _ & _ & H).
  exists req. rewrite H. cbn [fst snd http_requests flat_map app].
  split; [reflexivity|]. repeat split.
  - intros r -> Hs. cbn [backend_result]. rewrite Hs. reflexivity.
  - intros r j -> Hs Hj. cbn [backend_result].
    assert (Ha : status_in (status_code r) accepted_status = true).
    { apply status_in_spec. unfold accepted_status. simpl in *. tauto. }
    rewrite Ha.
    assert (Hn : Z.eqb (status_code r) 204 = false).
    { apply Z.eqb_neq. simpl in Hs. lia. }
    now rewrite Hn, Hj.
  - intros r -> Hs. cbn [backend_result].
    destruct (status_in (status_code r) accepted_status) eqn:Ha; [|reflexivity].
    apply status_in_spec in Ha. contradiction.
  - intros e ->. reflexivity.
Qed.

Lemma vercel_request_normalizes_witness :
  exists req,
    http_requests (snd (vercel_request env_404 "DELETE" "/v9/projects/prj_1" None None)) = [req] /\
    transport env_404 req
    = Responded (mkResponse 404 "Not Found"
                   (Raise (Exception "Expecting value: line 1 column 1 (char 0)"))) /\
    fst (vercel_request env_404 "DELETE" "/v9/projects/prj_1" None None)
    = Ok (JObj [("error", JStr "HTTP 404"); ("details", JStr "Not Found")]).
Proof.
  destruct (vercel_request_normalizes env_404 "DELETE" "/v9/projects/prj_1" None None)
    as (req & Hreq & _ & _ & Hfail & _).
  - cbv. tauto.
  - exists req. split; [exact Hreq|]. split; [reflexivity|].
    apply (Hfail _ eq_refl). cbv. intuition discriminate.
Defined.

(** An accepted status whose body is not JSON: [response.json()] raises
    inside the [try], and the message of that exception is returned as a
    failure. *)
Lemma vercel_request_unparsable (env : Env) (method endpoint : string)
      (data params : option dict) :
  In method http_verbs ->
  exists req,
    http_requests (snd (vercel_request env method endpoint data params)) = [req] /\
    forall r e, transport env req = Responded r ->
                In (status_code r) [200; 201; 202] ->
                json_body r = Raise e ->
                fst (vercel_request env method endpoint data params)
                = Ok (JObj [("error", JStr (exn_str e))]).
Proof.
  intros Hm.
  destruct (vercel_request_known env method endpoint data params Hm)
    as (req & _ & _ & _ & H).
  exists req. rewrite H. split; [reflexivity|].
  intros r e -> Hs Hj. cbn [fst backend_result].
  assert (Ha : status_in (status_code r) accepted_status = true).
  { apply status_in_spec. unfold accepted_status. simpl in *. tauto. }
  assert (Hn : Z.eqb (status_code r) 204 = false).
  { apply Z.eqb_neq. simpl in Hs. lia. }
  now rewrite Ha, Hn, Hj.
Qed.

Lemma scoped_params_team (env : Env) (params : option dict) :
  VERCEL_TEAM_ID env <> EmptyString ->
  exists q,
    scoped_params env params = Some q /\
    dict_get q "teamId" = Some (JStr (VERCEL_TEAM_ID env)) /\
    forall k, k <> "teamId" -> dict_get q k = dict_get (supplied params) k.
Proof.
  intros Hteam. apply String.eqb_neq in Hteam.
  unfold scoped_params. rewrite Hteam. cbn [negb].
  eexists. split; [reflexivity|]. split.
  - apply dict_get_set_same.
  - intros k Hk. rewrite dict_get_set_other by exact Hk.
    destruct params as [[|kv d]|]; reflexivity.
Qed.

Lemma scoped_params_no_team (env : Env) (params : option dict) :
  VERCEL_TEAM_ID env = EmptyString -> scoped_params env params = params.
Proof. intros H. unfold scoped_params. now rewrite H. Qed.

Lemma vercel_request_query (env : Env) (method endpoint : string)
      (data params : option dict) (req : HttpRequest) :
  In req (http_requests (snd (vercel_request env method endpoint data params))) ->
  query req = scoped_params env params.
Proof.
  destruct (in_dec string_dec method http_verbs) as [Hm|Hm].
  - destruct (vercel_request_known env method endpoint data params Hm)
      as (req0 & _ & _ & Hq & H).
    rewrite H. cbn. intros [<-|[]]. exact Hq.
  - rewrite (vercel_request_unknown env method endpoint data params Hm).
    cbn. contradiction.
Qed.

(** C7. Every request [vercel_request] sends: with a team identifier
    configured its query parameters are a dict in which [teamId] is the
    configured identifier and every other key is bound as the caller
    bound it (so a caller's own [teamId] is overridden and nothing else
    is); with none configured they are what the caller passed,
    untouched. *)
Theorem team_scoping (env : Env) (method endpoint : string)
        (data params : option dict) (req : HttpRequest) :
  In req (http_requests (snd (vercel_request env method endpoint data params))) ->
  (VERCEL_TEAM_ID env <> EmptyString ->
   exists q,
     query req = Some q /\
     dict_get q "teamId" = Some (JStr (VERCEL_TEAM_ID env)) /\
     forall k, k <> "teamId" -> dict_get q k = dict_get (supplied params) k)
  /\
  (VERCEL_TEAM_ID env = EmptyString -> query req = params).
Proof.
  intros Hin. rewrite (vercel_request_query env method endpoint data params req Hin).
  split.
  - apply scoped_params_team.
  - apply scoped_params_no_team.
Qed.

Lemma team_scoping_witness :
  exists q,
    query scoped_list_projects = Some q /\
    dict_get q "teamId" = Some (JStr "team_abc") /\
    forall k, k <> "teamId" ->
              dict_get q k = dict_get [("teamId", JStr "other"); ("limit", JInt 20)] k.
Proof.
  apply (proj1 (team_scoping env_team "GET" "/v9/projects" None
                  (Some [("teamId", JStr "other"); ("limit", JInt 20)])
                  scoped_list_projects (or_introl eq_refl))).
  discriminate.
Defined.

(** C8. When [create_env_var] is dispatched with its three required
    arguments, the Backend Client is invoked once, with [POST] on the
    project's [env] endpoint and a body of exactly four fields: [key] and
    [value] as supplied, [target] as supplied or, when the argument is
    absent, [["production", "preview", "development"]], and [type] set to
    ["encrypted"] whatever else the arguments contain. *)
Theorem create_env_var_body (env : Env) (args key value project_id : json) :
  field args "key" = Some key ->
  field args "value" = Some value ->
  field args "project_id" = Some project_id ->
  backend_calls (snd (handle_tool_call env (JStr "create_env_var") args))
  = [EvBackend "POST" ("/v10/projects/" ++ Py.str project_id ++ "/env")
       (Some [("key", key);
              ("value", value);
              ("target", match field args "target" with
                         | Some target => target
                         | None => JList [JStr "production"; JStr "preview";
                                          JStr "development"]
                         end);
              ("type", JStr "encrypted")])
       None].
Proof.
  destruct args as [ | | | | | |d]; try discriminate.
  cbn [field]. intros Hk Hv Hp.
  unfold handle_tool_call, tool_body.
  cbn [Py.eq_str String.eqb Ascii.eqb Bool.eqb py_getitem py_get].
  rewrite Hk, Hv, Hp. unfold ret at 1 2 3 4. rewrite !bind_ok.
  match goal with
  | |- context [vercel_request env ?m ?ep ?dt ?p] =>
      destruct (vercel_request_known env m ep dt p) as (req & _ & _ & _ & ->);
      [cbv; tauto|]
  end.
  rewrite bind_ok_trace. reflexivity.
Qed.

Lemma create_env_var_body_witness :
  backend_calls
    (snd (handle_tool_call env_404 (JStr "create_env_var")
            (JObj [("project_id", JStr "prj_1"); ("key", JStr "API_KEY");
                   ("value", JStr "s3cret"); ("type", JStr "plain");
                   ("target", JList [JStr "preview"])])))
  = [EvBackend "POST" "/v10/projects/prj_1/env"
       (Some [("key", JStr "API_KEY");
              ("value", JStr "s3cret");
              ("target", JList [JStr "preview"]);
              ("type", JStr "encrypted")])
       None].
Proof.
  apply (create_env_var_body env_404
           (JObj [("project_id", JStr "prj_1"); ("key", JStr "API_KEY");
                  ("value", JStr "s3cret"); ("type", JStr "plain");
                  ("target", JList [JStr "preview"])])
           (JStr "API_KEY") (JStr "s3cret") (JStr "prj_1"));
    reflexivity.
Defined.

(** The default applies when [target] is left out. *)
Example create_env_var_default_target :
  backend_calls
    (snd (handle_tool_call env_404 (JStr "create_env_var")
            (JObj [("project_id", JStr "prj_1"); ("key", JStr "API_KEY");
                   ("value", JStr "s3cret")])))
  = [EvBackend "POST" "/v10/projects/prj_1/env"
       (Some [("key", JStr "API_KEY");
              ("value", JStr "s3cret");
              ("target", JList [JStr "production"; JStr "preview"; JStr "development"]);
              ("type", JStr "encrypted")])
       None].
Proof. reflexivity. Qed.

(** * Further properties of the code *)

(** ** Strings *)

Lemma substring_0_length (n : nat) (s : string) :
  (String.length (substring 0 n s) <= n)%nat.
Proof.
  revert s. induction n as [|n IH]; intros [|c s]; simpl; try lia.
  specialize (IH s). lia.
Qed.

Lemma substring_0_prefix (n : nat) (s : string) :
  String.prefix (substring 0 n s) s = true.
Proof.
  revert s. induction n as [|n IH]; intros [|c s]; simpl; auto.
  destruct (ascii_dec c c) as [_|F]; [apply IH | now elim F].
Qed.

Lemma substring_0_all (n : nat) (s : string) :
  (String.length s <= n)%nat -> substring 0 n s = s.
Proof.
  revert s. induction n as [|n IH]; intros [|c s]; simpl; auto; intros H.
  - lia.
  - f_equal. apply IH. lia.
Qed.

(** ** One call of the Backend Client *)

Lemma vercel_request_sends (env : Env) (method endpoint : string)
      (data params : option dict) :
  In method http_verbs ->
  vercel_request env method endpoint data params
  = (Ok (backend_result (transport env (outbound env method endpoint data params))),
     [EvBackend method endpoint data params;
      EvHttp (outbound env method endpoint data params)]).
Proof.
  intros Hm. unfold vercel_request. rewrite bind_emit.
  simpl in Hm.
  destruct Hm as [<-|[<-|[<-|[<-|[<-|[]]]]]]; cbn [String.eqb Ascii.eqb Bool.eqb];
    rewrite send_normalize; reflexivity.
Qed.

Lemma call_backend_known (env : Env) (method endpoint : string)
      (data params : option dict) :
  In method http_verbs ->
  call_backend env method endpoint data params
  = (Ok (serialized (backend_result
                       (transport env (outbound env method endpoint data params)))),
     [EvBackend method endpoint data params;
      EvHttp (outbound env method endpoint data params)]).
Proof.
  intros Hm. unfold call_backend.
  rewrite (vercel_request_sends env method endpoint data params Hm), bind_ok_trace.
  reflexivity.
Qed.

(** A body that ends in a call is not touched by the [except] clause. *)
Lemma handle_of_call (env : Env) (name args : json) (method endpoint : string)
      (data params : option dict) :
  In method http_verbs ->
  tool_body env name args = call_backend env method endpoint data params ->
  handle_tool_call env name args
  = (Ok (serialized (backend_result
                       (transport env (outbound env method endpoint data params)))),
     [EvBackend method endpoint data params;
      EvHttp (outbound env method endpoint data params)]).
Proof.
  intros Hm Hb. unfold handle_tool_call.
  now rewrite Hb, (call_backend_known env method endpoint data params Hm).
Qed.

Lemma handle_of_raise (env : Env) (name args : json) (e : exn) :
  tool_body env name args = (Raise e, []) ->
  handle_tool_call env name args = (Ok (error_result e), [tool_error_log name e]).
Proof. intros Hb. unfold handle_tool_call. now rewrite Hb. Qed.

(** On a dict, [if args.get(key): d[field] = args[key]] cannot raise. *)
Lemma copy_if_truthy_dict (a : dict) (key fld : string) (d : dict) :
  copy_if_truthy (JObj a) key fld d
  = ret (if Py.truthy (dict_get_default a key JNull)
         then dict_set d fld (dict_get_default a key JNull)
         else d).
Proof.
  unfold copy_if_truthy, dict_get_default. cbn [py_get py_getitem].
  unfold dict_get_default, ret. rewrite bind_ok.
  destruct (dict_get a key) as [x|]; [|reflexivity].
  destruct (Py.truthy x); [now rewrite bind_ok | reflexivity].
Qed.

(** ** The branches of the dispatcher on a dict of arguments *)

Ltac branch_eq :=
  unfold tool_body;
  cbn [Py.eq_str String.eqb Ascii.eqb Bool.eqb py_getitem py_get];
  repeat match goal with
         | |- context [match dict_get ?d ?k with _ => _ end] =>
             destruct (dict_get d k)
         end;
  repeat first [ rewrite bind_ok | rewrite bind_raise | rewrite copy_if_truthy_dict
               | progress unfold ret, raise ];
  reflexivity.

Lemma body_list_projects (env : Env) (d : dict) :
  tool_body env (JStr "list_projects") (JObj d)
  = call_backend env "GET" "/v9/projects" None
      (Some [("limit", dict_get_default d "limit" (JInt 20))]).
Proof. branch_eq. Qed.

Lemma body_get_project (env : Env) (d : dict) :
  tool_body env (JStr "get_project") (JObj d)
  = match dict_get d "project_id" with
    | Some p => call_backend env "GET" ("/v9/projects/" ++ Py.str p) None None
    | None => (Raise (KeyError "project_id"), [])
    end.
Proof. branch_eq. Qed.

Lemma body_create_project (env : Env) (d : dict) :
  tool_body env (JStr "create_project") (JObj d)
  = match dict_get d "name" with
    | Some n =>
        let data := [("name", n)] in
        let data := if Py.truthy (dict_get_default d "framework" JNull)
                    then dict_set data "framework" (dict_get_default d "framework" JNull)
                    else data in
        let data := if Py.truthy (dict_get_default d "git_repository" JNull)
                    then dict_set data "gitRepository"
                           (dict_get_default d "git_repository" JNull)
                    else data in
        call_backend env "POST" "/v10/projects" (Some data) None
    | None => (Raise (KeyError "name"), [])
    end.
Proof. branch_eq. Qed.

Lemma body_delete_project (env : Env) (d : dict) :
  tool_body env (JStr "delete_project") (JObj d)
  = match dict_get d "project_id" with
    | Some p => call_backend env "DELETE" ("/v9/projects/" ++ Py.str p) None None
    | None => (Raise (KeyError "project_id"), [])
    end.
Proof. branch_eq. Qed.

Lemma body_list_deployments (env : Env) (d : dict) :
  tool_body env (JStr "list_deployments") (JObj d)
  = let params := [("limit", dict_get_default d "limit" (JInt 10))] in
    let params := if Py.truthy (dict_get_default d "project_id" JNull)
                  then dict_set params "projectId" (dict_get_default d "project_id" JNull)
                  else params in
    let params := if Py.truthy (dict_get_default d "state" JNull)
                  then dict_set params "state" (dict_get_default d "state" JNull)
                  else params in
    call_backend env "GET" "/v6/deployments" None (Some params).
Proof. branch_eq. Qed.

Lemma body_get_deployment (env : Env) (d : dict) :
  tool_body env (JStr "get_deployment") (JObj d)
  = match dict_get d "deployment_id" with
    | Some i => call_backend env "GET" ("/v13/deployments/" ++ Py.str i) None None
    | None => (Raise (KeyError "deployment_id"), [])
    end.
Proof. branch_eq. Qed.

Lemma body_cancel_deployment (env : Env) (d : dict) :
  tool_body env (JStr "cancel_deployment") (JObj d)
  = match dict_get d "deployment_id" with
    | Some i => call_backend env "PATCH"
                  ("/v12/deployments/" ++ Py.str i ++ "/cancel") None None
    | None => (Raise (KeyError "deployment_id"), [])
    end.
Proof. branch_eq. Qed.

Lemma body_list_domains (env : Env) (d : dict) :
  tool_body env (JStr "list_domains") (JObj d)
  = call_backend env "GET" "/v5/domains" None
      (Some [("limit", dict_get_default d "limit" (JInt 20))]).
Proof. branch_eq. Qed.

Lemma body_add_domain (env : Env) (d : dict) :
  tool_body env (JStr "add_domain") (JObj d)
  = match dict_get d "project_id" with
    | Some p =>
        match dict_get d "domain" with
        | Some dm => call_backend env "POST"
                       ("/v10/projects/" ++ Py.str p ++ "/domains")
                       (Some [("name", dm)]) None
        | None => (Raise (KeyError "domain"), [])
        end
    | None => (Raise (KeyError "project_id"), [])
    end.
Proof. branch_eq. Qed.

Lemma body_remove_domain (env : Env) (d : dict) :
  tool_body env (JStr "remove_domain") (JObj d)
  = match dict_get d "project_id" with
    | Some p =>
        match dict_get d "domain" with
        | Some dm => call_backend env "DELETE"
                       ("/v9/projects/" ++ Py.str p ++ "/domains/" ++ Py.str dm)
                       None None
        | None => (Raise (KeyError "domain"), [])
        end
    | None => (Raise (KeyError "project_id"), [])
    end.
Proof. branch_eq. Qed.

Lemma body_list_env_vars (env : Env) (d : dict) :
  tool_body env (JStr "list_env_vars") (JObj d)
  = match dict_get d "project_id" with
    | Some p => call_backend env "GET" ("/v9/projects/" ++ Py.str p ++ "/env") None None
    | None => (Raise (KeyError "project_id"), [])
    end.
Proof. branch_eq. Qed.

Lemma body_create_env_var (env : Env) (d : dict) :
  tool_body env (JStr "create_env_var") (JObj d)
  = match dict_get d "key" with
    | Some k =>
        match dict_get d "value" with
        | Some v =>
            match dict_get d "project_id" with
            | Some p =>
                call_backend env "POST" ("/v10/projects/" ++ Py.str p ++ "/env")
                  (Some [("key", k); ("value", v);
                         ("target", dict_get_default d "target" default_target);
                         ("type", JStr "encrypted")]) None
            | None => (Raise (KeyError "project_id"), [])
            end
        | None => (Raise (KeyError "value"), [])
        end
    | None => (Raise (KeyError "key"), [])
    end.
Proof. branch_eq. Qed.

Lemma body_delete_env_var (env : Env) (d : dict) :
  tool_body env (JStr "delete_env_var") (JObj d)
  = match dict_get d "project_id" with
    | Some p =>
        match dict_get d "env_id" with
        | Some i => call_backend env "DELETE"
                      ("/v9/projects/" ++ Py.str p ++ "/env/" ++ Py.str i) None None
        | None => (Raise (KeyError "env_id"), [])
        end
    | None => (Raise (KeyError "project_id"), [])
    end.
Proof. branch_eq. Qed.

Lemma body_redeploy (env : Env) (d : dict) :
  tool_body env (JStr "redeploy") (JObj d)
  = match dict_get d "deployment_id" with
    | Some i => call_backend env "POST" "/v13/deployments"
                  (Some [("deploymentId", i); ("target", JStr "production")]) None
    | None => (Raise (KeyError "deployment_id"), [])
    end.
Proof. branch_eq. Qed.

Lemma body_get_user (env : Env) (args : json) :
  tool_body env (JStr "get_user") args = call_backend env "GET" "/v2/user" None None.
Proof. reflexivity. Qed.

(** ** The Backend Client, further *)

(** X1. [vercel_request] never raises, whatever the verb and whatever the
    transport does: it returns a value, and its trace is the invocation
    followed by at most one request. With a verb outside the five nothing
    is sent and the value is [{"error": "Unknown method: <method>"}]
    (the comparison is on the exact, upper-case, spelling). *)
Theorem vercel_request_never_raises (env : Env) (method endpoint : string)
        (data params : option dict) :
  (exists j, fst (vercel_request env method endpoint data params) = Ok j)
  /\ backend_calls (snd (vercel_request env method endpoint data params))
     = [EvBackend method endpoint data params]
  /\ (In method http_verbs ->
      length (http_requests (snd (vercel_request env method endpoint data params))) = 1%nat)
  /\ (~ In method http_verbs ->
      vercel_request env method endpoint data params
      = (Ok (JObj [("error", JStr ("Unknown method: " ++ method))]),
         [EvBackend method endpoint data params])).
Proof.
  destruct (in_dec string_dec method http_verbs) as [Hm|Hm].
  - rewrite (vercel_request_sends env method endpoint data params Hm).
    repeat split; try reflexivity; [eexists; reflexivity | contradiction].
  - rewrite (vercel_request_unknown env method endpoint data params Hm).
    repeat split; try reflexivity; [eexists; reflexivity | contradiction].
Qed.

Lemma vercel_request_never_raises_witness :
  vercel_request env_404 "get" "/v2/user" None None
  = (Ok (JObj [("error", JStr ("Unknown method: " ++ "get"))]),
     [EvBackend "get" "/v2/user" None None])
  /\ length (http_requests (snd (vercel_request env_404 "PUT" "/v2/user" None None))) = 1%nat.
Proof.
  split.
  - apply (proj2 (proj2 (proj2
             (vercel_request_never_raises env_404 "get" "/v2/user" None None)))).
    cbv. intuition discriminate.
  - apply (proj1 (proj2 (proj2
             (vercel_request_never_raises env_404 "PUT" "/v2/user" None None)))).
    cbv. tauto.
Defined.

(** X2. The one request sent for a call with a known verb: the verb
    itself, the base URL followed by the endpoint as given (nothing is
    escaped or checked), the bearer token and the JSON content type as the
    only headers, the team-scoped query, and the data as body for POST,
    PATCH and PUT only: GET and DELETE drop a supplied body. *)
Theorem vercel_request_outbound (env : Env) (method endpoint : string)
        (data params : option dict) :
  In method http_verbs ->
  http_requests (snd (vercel_request env method endpoint data params))
  = [mkRequest method
       ("https://api.vercel.com" ++ endpoint)
       [("Authorization", "Bearer " ++ VERCEL_TOKEN env);
        ("Content-Type", "application/json")]
       (if String.eqb method "GET" || String.eqb method "DELETE" then None else data)
       (scoped_params env params)].
Proof.
  intros Hm. now rewrite (vercel_request_sends env method endpoint data params Hm).
Qed.

Lemma vercel_request_outbound_witness :
  http_requests
    (snd (vercel_request env_team "DELETE" "/v9/projects/a/../b"
            (Some [("name", JStr "x")]) None))
  = [mkRequest "DELETE" "https://api.vercel.com/v9/projects/a/../b"
       [("Authorization", "Bearer token"); ("Content-Type", "application/json")]
       None
       (Some [("teamId", JStr "team_abc")])].
Proof.
  apply (vercel_request_outbound env_team "DELETE" "/v9/projects/a/../b"
           (Some [("name", JStr "x")]) None).
  cbv. tauto.
Defined.

(** X3. The [details] of an HTTP failure are a prefix of the response
    body of at most 500 characters, and the whole body when it has no
    more than 500. *)
Theorem failure_details_bounded (env : Env) (method endpoint : string)
        (data params : option dict) (req : HttpRequest) (r : Response) :
  In req (http_requests (snd (vercel_request env method endpoint data params))) ->
  transport env req = Responded r ->
  ~ In (status_code r) [200; 201; 202; 204] ->
  exists details j,
    fst (vercel_request env method endpoint data params) = Ok j /\
    field j "details" = Some (JStr details) /\
    (String.length details <= 500)%nat /\
    String.prefix details (text r) = true /\
    ((String.length (text r) <= 500)%nat -> details = text r).
Proof.
  intros Hin Hr Hs.
  destruct (in_dec string_dec method http_verbs) as [Hm|Hm].
  - rewrite (vercel_request_sends env method endpoint data params Hm) in *.
    cbn in Hin. destruct Hin as [<-|[]]. rewrite Hr.
    cbn [fst backend_result].
    destruct (status_in (status_code r) accepted_status) eqn:Ha.
    + apply status_in_spec in Ha. contradiction.
    + exists (substring 0 500 (text r)). eexists. split; [reflexivity|].
      split; [reflexivity|]. split; [apply substring_0_length|].
      split; [apply substring_0_prefix | apply substring_0_all].
  - rewrite (vercel_request_unknown env method endpoint data params Hm) in Hin.
    cbn in Hin. contradiction.
Qed.

Lemma failure_details_bounded_witness :
  exists details j,
    fst (vercel_request env_404 "GET" "/v2/user" None None) = Ok j /\
    field j "details" = Some (JStr details) /\
    (String.length details <= 500)%nat /\
    String.prefix details "Not Found" = true /\
    ((String.length "Not Found" <= 500)%nat -> details = "Not Found").
Proof.
  apply (failure_details_bounded env_404 "GET" "/v2/user" None None
           (outbound env_404 "GET" "/v2/user" None None)
           (mkResponse 404 "Not Found"
              (Raise (Exception "Expecting value: line 1 column 1 (char 0)")))).
  - cbv. tauto.
  - reflexivity.
  - cbv. intuition discriminate.
Defined.

(** ** The dispatcher, further *)

Lemma calls_of_call (env : Env) (name args : json) (method endpoint : string)
      (data params : option dict) :
  In method http_verbs ->
  tool_body env name args = call_backend env method endpoint data params ->
  backend_calls (snd (handle_tool_call env name args))
  = [EvBackend method endpoint data params].
Proof.
  intros Hm Hb. now rewrite (handle_of_call env name args _ _ _ _ Hm Hb).
Qed.

Ltac known_verb := cbv; tauto.

(** X4. Whether the name is in the registry decides, alone, whether the
    answer is the unknown-tool one: the fifteen names of [TOOLS] are the
    fifteen names the chain of comparisons matches. *)
Theorem registry_is_dispatch_table (env : Env) (name args : json) :
  In name tool_names
  <-> fst (handle_tool_call env name args)
      <> Ok (JObj [("content",
                    JList [JObj [("type", JStr "text");
                                 ("text", JStr ("Unknown tool: " ++ Py.str name))]]);
                   ("isError", JBool true)]).
Proof.
  destruct (handle_tool_call_cases env name args)
    as [(Hn & _ & H) | [(Hn & e & _ & H) | (Hn & m & ep & d & p & req & _ & _ & _ & _ & H)]];
    rewrite H; cbn [fst]; split; intros H'; try assumption.
  - contradiction.
  - now elim H'.
  - unfold error_result, text_content. cbn [append]. congruence.
  - unfold serialized. discriminate.
Qed.

(** X5. What a dispatch leaves in the trace: at most one invocation of
    the Backend Client, exactly one outbound request per invocation, and a
    log record only when nothing was invoked. *)
Theorem dispatch_trace_shape (env : Env) (name args : json) :
  (length (backend_calls (snd (handle_tool_call env name args))) <= 1)%nat
  /\ length (http_requests (snd (handle_tool_call env name args)))
     = length (backend_calls (snd (handle_tool_call env name args)))
  /\ (forall msg, In (EvLog msg) (snd (handle_tool_call env name args)) ->
                  snd (handle_tool_call env name args) = [EvLog msg]).
Proof.
  destruct (handle_tool_call_cases env name args)
    as [(_ & _ & H) | [(_ & e & _ & H) | (_ & m & ep & d & p & req & _ & _ & _ & _ & H)]];
    rewrite H; cbn; repeat split; auto; intros msg Hin.
  - contradiction.
  - destruct Hin as [Hin|[]]. now rewrite Hin.
  - destruct Hin as [Hin|[Hin|[]]]; discriminate Hin.
Qed.

(** X6. [isError] is set exactly when the Backend Client was not
    invoked: an answer either carries [isError: true] and nothing was
    called, or has no [isError] key and one call was made. *)
Theorem isError_iff_no_backend_call (env : Env) (name args : json) :
  exists v,
    fst (handle_tool_call env name args) = Ok v /\
    (field v "isError" = Some (JBool true)
     <-> backend_calls (snd (handle_tool_call env name args)) = []) /\
    (field v "isError" = None
     <-> length (backend_calls (snd (handle_tool_call env name args))) = 1%nat).
Proof.
  destruct (handle_tool_call_cases env name args)
    as [(_ & _ & H) | [(_ & e & _ & H) | (_ & m & ep & d & p & req & _ & _ & _ & _ & H)]];
    rewrite H; eexists; (split; [reflexivity|]); cbn; split; split;
    auto; discriminate.
Qed.

(** X7. What a dispatch makes of an upstream answer with an accepted
    status: for 204 the text is the serialised [{"success": true}]; for
    200, 201 and 202 it is the serialised body, or, when the body is not
    JSON, the serialised [{"error": <message of the decoding error>}].
    In none of these cases is [isError] set. *)
Theorem upstream_success_is_content (env : Env) (name args : json)
        (req : HttpRequest) (r : Response) :
  In req (http_requests (snd (handle_tool_call env name args))) ->
  transport env req = Responded r ->
  (status_code r = 204 ->
   fst (handle_tool_call env name args)
   = Ok (JObj [("content",
                JList [JObj [("type", JStr "text");
                             ("text", JStr (Py.json_dumps
                                              (JObj [("success", JBool true)])))]])]))
  /\
  (forall j, In (status_code r) [200; 201; 202] -> json_body r = Ok j ->
   fst (handle_tool_call env name args)
   = Ok (JObj [("content",
                JList [JObj [("type", JStr "text");
                             ("text", JStr (Py.json_dumps j))]])]))
  /\
  (forall e, In (status_code r) [200; 201; 202] -> json_body r = Raise e ->
   fst (handle_tool_call env name args)
   = Ok (JObj [("content",
                JList [JObj [("type", JStr "text");
                             ("text", JStr (Py.json_dumps
                                              (JObj [("error", JStr (exn_str e))])))]])])).
Proof.
  intros Hin Hr.
  destruct (handle_tool_call_cases env name args)
    as [(_ & _ & H) | [(_ & e & _ & H) | (_ & m & ep & d & p & req0 & _ & _ & _ & _ & H)]];
    rewrite H in *; cbn in Hin; try contradiction.
  destruct Hin as [<-|[]]. rewrite Hr. cbn [fst backend_result].
  assert (Hacc : In (status_code r) [200; 201; 202] ->
                 status_in (status_code r) accepted_status = true
                 /\ Z.eqb (status_code r) 204 = false).
  { intros Hs. split.
    - apply status_in_spec. unfold accepted_status. simpl in *. tauto.
    - apply Z.eqb_neq. simpl in Hs. lia. }
  split; [|split].
  - intros ->. reflexivity.
  - intros j Hs Hj. destruct (Hacc Hs) as [-> ->]. now rewrite Hj.
  - intros e Hs Hj. destruct (Hacc Hs) as [-> ->]. now rewrite Hj.
Qed.

(** An upstream that answers [204 No Content]. *)
Lemma upstream_success_is_content_witness :
  fst (handle_tool_call (mkEnv "token" EmptyString
                           (fun _ => Responded (mkResponse 204 EmptyString
                                                  (Raise (Exception "Expecting value")))))
         (JStr "delete_project") (JObj [("project_id", JStr "prj_1")]))
  = Ok (JObj [("content",
               JList [JObj [("type", JStr "text");
                            ("text", JStr (Py.json_dumps
                                             (JObj [("success", JBool true)])))]])]).
Proof.
  apply (proj1 (upstream_success_is_content
                  (mkEnv "token" EmptyString
                     (fun _ => Responded (mkResponse 204 EmptyString
                                            (Raise (Exception "Expecting value")))))
                  (JStr "delete_project") (JObj [("project_id", JStr "prj_1")])
                  (mkRequest "DELETE" "https://api.vercel.com/v9/projects/prj_1"
                     [("Authorization", "Bearer token");
                      ("Content-Type", "application/json")] None None)
                  (mkResponse 204 EmptyString (Raise (Exception "Expecting value")))
                  (or_introl eq_refl) eq_refl)).
  reflexivity.
Defined.

(** ** The dispatch table, tool by tool *)

(** X8. [get_user] never looks at its arguments: whatever they are, a
    dict or not, the call is [GET /v2/user] with no data and no query, and
    the answer is the one an empty dict gets. *)
Theorem get_user_ignores_arguments (env : Env) (args : json) :
  backend_calls (snd (handle_tool_call env (JStr "get_user") args))
  = [EvBackend "GET" "/v2/user" None None]
  /\ handle_tool_call env (JStr "get_user") args
     = handle_tool_call env (JStr "get_user") (JObj []).
Proof.
  split.
  - apply calls_of_call; [known_verb | apply body_get_user].
  - unfold handle_tool_call. now rewrite !body_get_user.
Qed.

(** X9. [list_projects] and [list_domains] pass the caller's [limit]
    through untouched, whatever its type, and 20 when the key is absent;
    an explicit [null] is passed as such, it does not bring the default
    back. *)
Theorem list_limit_default (env : Env) (d : dict) :
  backend_calls (snd (handle_tool_call env (JStr "list_projects") (JObj d)))
  = [EvBackend "GET" "/v9/projects" None
       (Some [("limit", match dict_get d "limit" with Some l => l | None => JInt 20 end)])]
  /\ backend_calls (snd (handle_tool_call env (JStr "list_domains") (JObj d)))
     = [EvBackend "GET" "/v5/domains" None
          (Some [("limit", match dict_get d "limit" with Some l => l | None => JInt 20 end)])].
Proof.
  split; apply calls_of_call;
    [known_verb | apply body_list_projects | known_verb | apply body_list_domains].
Qed.

(** X10. [list_deployments] has no required argument. Its query is
    [limit] (10 when absent), then [projectId] when [project_id] is given
    and truthy, then [state] when [state] is given and truthy; an empty
    string, [null], [0] or [false] is left out like an absent key. *)
Theorem list_deployments_query (env : Env) (d : dict) :
  backend_calls (snd (handle_tool_call env (JStr "list_deployments") (JObj d)))
  = [EvBackend "GET" "/v6/deployments" None
       (Some ([("limit", match dict_get d "limit" with Some l => l | None => JInt 10 end)]
              ++ match dict_get d "project_id" with
                 | Some p => if Py.truthy p then [("projectId", p)] else []
                 | None => []
                 end
              ++ match dict_get d "state" with
                 | Some s => if Py.truthy s then [("state", s)] else []
                 | None => []
                 end)%list)].
Proof.
  assert (Hv : In "GET" http_verbs) by known_verb.
  rewrite (calls_of_call env _ _ _ _ _ _ Hv (body_list_deployments env d)).
  unfold dict_get_default.
  destruct (dict_get d "project_id") as [p|]; [destruct (Py.truthy p)|];
    (destruct (dict_get d "state") as [s|]; [destruct (Py.truthy s)|]); reflexivity.
Qed.

(** X11. [create_project] posts a body that starts with [name] and
    carries [framework] and [gitRepository] (the upstream spelling of
    [git_repository]) only when the argument is given and truthy; no other
    argument reaches the body. *)
Theorem create_project_body (env : Env) (d : dict) (n : json) :
  dict_get d "name" = Some n ->
  backend_calls (snd (handle_tool_call env (JStr "create_project") (JObj d)))
  = [EvBackend "POST" "/v10/projects"
       (Some ([("name", n)]
              ++ match dict_get d "framework" with
                 | Some f => if Py.truthy f then [("framework", f)] else []
                 | None => []
                 end
              ++ match dict_get d "git_repository" with
                 | Some g => if Py.truthy g then [("gitRepository", g)] else []
                 | None => []
                 end)%list)
       None].
Proof.
  intros Hn.
  pose proof (body_create_project env d) as Hb. rewrite Hn in Hb. cbv zeta in Hb.
  assert (Hv : In "POST" http_verbs) by known_verb.
  rewrite (calls_of_call env _ _ _ _ _ _ Hv Hb).
  unfold dict_get_default.
  destruct (dict_get d "framework") as [f|]; [destruct (Py.truthy f)|];
    (destruct (dict_get d "git_repository") as [g|]; [destruct (Py.truthy g)|]);
    reflexivity.
Qed.

Lemma create_project_body_witness :
  backend_calls
    (snd (handle_tool_call env_404 (JStr "create_project")
            (JObj [("name", JStr "site"); ("framework", JStr EmptyString);
                   ("git_repository", JObj [("type", JStr "github");
                                            ("repo", JStr "acme/site")]);
                   ("public", JBool true)])))
  = [EvBackend "POST" "/v10/projects"
       (Some [("name", JStr "site");
              ("gitRepository", JObj [("type", JStr "github"); ("repo", JStr "acme/site")])])
       None].
Proof.
  apply (create_project_body env_404
           [("name", JStr "site"); ("framework", JStr EmptyString);
            ("git_repository", JObj [("type", JStr "github"); ("repo", JStr "acme/site")]);
            ("public", JBool true)] (JStr "site")).
  reflexivity.
Defined.

(** X12. The three tools keyed by a project alone: with [project_id]
    present, its [str] is spliced into the path as it is (a number is
    written in decimal, nothing is escaped), with no data and no query. *)
Theorem project_tools_call (env : Env) (d : dict) (p : json) :
  dict_get d "project_id" = Some p ->
  backend_calls (snd (handle_tool_call env (JStr "get_project") (JObj d)))
  = [EvBackend "GET" ("/v9/projects/" ++ Py.str p) None None]
  /\ backend_calls (snd (handle_tool_call env (JStr "delete_project") (JObj d)))
     = [EvBackend "DELETE" ("/v9/projects/" ++ Py.str p) None None]
  /\ backend_calls (snd (handle_tool_call env (JStr "list_env_vars") (JObj d)))
     = [EvBackend "GET" ("/v9/projects/" ++ Py.str p ++ "/env") None None].
Proof.
  intros Hp.
  pose proof (body_get_project env d) as H1.
  pose proof (body_delete_project env d) as H2.
  pose proof (body_list_env_vars env d) as H3.
  rewrite Hp in H1, H2, H3.
  repeat split; (apply calls_of_call; [known_verb | assumption]).
Qed.

Lemma project_tools_call_witness :
  backend_calls (snd (handle_tool_call env_404 (JStr "get_project")
                        (JObj [("project_id", JInt 42)])))
  = [EvBackend "GET" ("/v9/projects/" ++ Py.str (JInt 42)) None None]
  /\ backend_calls (snd (handle_tool_call env_404 (JStr "delete_project")
                           (JObj [("project_id", JInt 42)])))
     = [EvBackend "DELETE" ("/v9/projects/" ++ Py.str (JInt 42)) None None]
  /\ backend_calls (snd (handle_tool_call env_404 (JStr "list_env_vars")
                           (JObj [("project_id", JInt 42)])))
     = [EvBackend "GET" ("/v9/projects/" ++ Py.str (JInt 42) ++ "/env") None None].
Proof.
  apply (project_tools_call env_404 [("project_id", JInt 42)] (JInt 42)).
  reflexivity.
Defined.

(** X13. The three tools keyed by a deployment: [get_deployment] and
    [cancel_deployment] splice the identifier into the path, the latter
    with PATCH and no body; [redeploy] posts it as [deploymentId] to the
    fixed path [/v13/deployments], always with the target
    ["production"]. *)
Theorem deployment_tools_call (env : Env) (d : dict) (i : json) :
  dict_get d "deployment_id" = Some i ->
  backend_calls (snd (handle_tool_call env (JStr "get_deployment") (JObj d)))
  = [EvBackend "GET" ("/v13/deployments/" ++ Py.str i) None None]
  /\ backend_calls (snd (handle_tool_call env (JStr "cancel_deployment") (JObj d)))
     = [EvBackend "PATCH" ("/v12/deployments/" ++ Py.str i ++ "/cancel") None None]
  /\ backend_calls (snd (handle_tool_call env (JStr "redeploy") (JObj d)))
     = [EvBackend "POST" "/v13/deployments"
          (Some [("deploymentId", i); ("target", JStr "production")]) None].
Proof.
  intros Hi.
  pose proof (body_get_deployment env d) as H1.
  pose proof (body_cancel_deployment env d) as H2.
  pose proof (body_redeploy env d) as H3.
  rewrite Hi in H1, H2, H3.
  repeat split; (apply calls_of_call; [known_verb | assumption]).
Qed.

Lemma deployment_tools_call_witness :
  backend_calls (snd (handle_tool_call env_404 (JStr "get_deployment")
                        (JObj [("deployment_id", JStr "dpl_1"); ("target", JStr "preview")])))
  = [EvBackend "GET" ("/v13/deployments/" ++ Py.str (JStr "dpl_1")) None None]
  /\ backend_calls (snd (handle_tool_call env_404 (JStr "cancel_deployment")
                           (JObj [("deployment_id", JStr "dpl_1"); ("target", JStr "preview")])))
     = [EvBackend "PATCH" ("/v12/deployments/" ++ Py.str (JStr "dpl_1") ++ "/cancel")
          None None]
  /\ backend_calls (snd (handle_tool_call env_404 (JStr "redeploy")
                           (JObj [("deployment_id", JStr "dpl_1"); ("target", JStr "preview")])))
     = [EvBackend "POST" "/v13/deployments"
          (Some [("deploymentId", JStr "dpl_1"); ("target", JStr "production")]) None].
Proof.
  apply (deployment_tools_call env_404
           [("deployment_id", JStr "dpl_1"); ("target", JStr "preview")] (JStr "dpl_1")).
  reflexivity.
Defined.

(** X14. The tools keyed by a project and a second name: [add_domain]
    posts the domain as [name] under the project's [domains];
    [remove_domain] and [delete_env_var] send DELETE, with both values in
    the path and no body. *)
Theorem project_item_tools_call (env : Env) (d : dict) (p : json) :
  dict_get d "project_id" = Some p ->
  (forall dm, dict_get d "domain" = Some dm ->
     backend_calls (snd (handle_tool_call env (JStr "add_domain") (JObj d)))
     = [EvBackend "POST" ("/v10/projects/" ++ Py.str p ++ "/domains")
          (Some [("name", dm)]) None]
     /\ backend_calls (snd (handle_tool_call env (JStr "remove_domain") (JObj d)))
        = [EvBackend "DELETE" ("/v9/projects/" ++ Py.str p ++ "/domains/" ++ Py.str dm)
             None None])
  /\
  (forall i, dict_get d "env_id" = Some i ->
     backend_calls (snd (handle_tool_call env (JStr "delete_env_var") (JObj d)))
     = [EvBackend "DELETE" ("/v9/projects/" ++ Py.str p ++ "/env/" ++ Py.str i)
          None None]).
Proof.
  intros Hp. split.
  - intros dm Hd.
    pose proof (body_add_domain env d) as H1.
    pose proof (body_remove_domain env d) as H2.
    rewrite Hp, Hd in H1, H2.
    split; (apply calls_of_call; [known_verb | assumption]).
  - intros i Hi.
    pose proof (body_delete_env_var env d) as H1. rewrite Hp, Hi in H1.
    apply calls_of_call; [known_verb | assumption].
Qed.

Lemma project_item_tools_call_witness :
  (backend_calls (snd (handle_tool_call env_404 (JStr "add_domain")
                         (JObj [("project_id", JStr "prj_1"); ("domain", JStr "acme.dev");
                                ("env_id", JStr "env_9")])))
   = [EvBackend "POST" ("/v10/projects/" ++ Py.str (JStr "prj_1") ++ "/domains")
        (Some [("name", JStr "acme.dev")]) None]
   /\ backend_calls (snd (handle_tool_call env_404 (JStr "remove_domain")
                            (JObj [("project_id", JStr "prj_1"); ("domain", JStr "acme.dev");
                                   ("env_id", JStr "env_9")])))
      = [EvBackend "DELETE"
           ("/v9/projects/" ++ Py.str (JStr "prj_1") ++ "/domains/" ++ Py.str (JStr "acme.dev"))
           None None])
  /\ backend_calls (snd (handle_tool_call env_404 (JStr "delete_env_var")
                           (JObj [("project_id", JStr "prj_1"); ("domain", JStr "acme.dev");
                                  ("env_id", JStr "env_9")])))
     = [EvBackend "DELETE"
          ("/v9/projects/" ++ Py.str (JStr "prj_1") ++ "/env/" ++ Py.str (JStr "env_9"))
          None None].
Proof.
  destruct (project_item_tools_call env_404
              [("project_id", JStr "prj_1"); ("domain", JStr "acme.dev");
               ("env_id", JStr "env_9")] (JStr "prj_1") eq_refl) as [Hdom Henv].
  split; [exact (Hdom (JStr "acme.dev") eq_refl) | exact (Henv (JStr "env_9") eq_refl)].
Defined.

(** ** The registry's schemas and the dispatcher *)

(** Name and required keys of every registry entry, as [TOOLS] declares
    them. *)
Lemma registry_required :
  map (fun t => (tool_name t, required_keys t)) TOOLS
  = [(JStr "list_projects", []); (JStr "get_project", ["project_id"]);
     (JStr "create_project", ["name"]); (JStr "delete_project", ["project_id"]);
     (JStr "list_deployments", []); (JStr "get_deployment", ["deployment_id"]);
     (JStr "cancel_deployment", ["deployment_id"]); (JStr "list_domains", []);
     (JStr "add_domain", ["project_id"; "domain"]);
     (JStr "remove_domain", ["project_id"; "domain"]);
     (JStr "list_env_vars", ["project_id"]);
     (JStr "create_env_var", ["project_id"; "key"; "value"]);
     (JStr "delete_env_var", ["project_id"; "env_id"]);
     (JStr "redeploy", ["deployment_id"]); (JStr "get_user", [])].
Proof. reflexivity. Qed.

Ltac rewrite_body :=
  first [ rewrite body_list_projects | rewrite body_get_project
        | rewrite body_create_project | rewrite body_delete_project
        | rewrite body_list_deployments | rewrite body_get_deployment
        | rewrite body_cancel_deployment | rewrite body_list_domains
        | rewrite body_add_domain | rewrite body_remove_domain
        | rewrite body_list_env_vars | rewrite body_create_env_var
        | rewrite body_delete_env_var | rewrite body_redeploy
        | rewrite body_get_user ];
  cbv zeta.

Ltac split_on_keys :=
  repeat match goal with
         | |- context [match dict_get ?d ?k with _ => _ end] =>
             let E := fresh "E" in destruct (dict_get d k) eqn:E
         end.

(** On a dict, a branch either finds its required keys and calls the
    client, or raises [KeyError] on a required key that is absent. *)
Lemma shaping_by_required (env : Env) (t : json) (d : dict) :
  In t TOOLS ->
  (exists method endpoint data params,
      In method http_verbs /\
      tool_body env (tool_name t) (JObj d) = call_backend env method endpoint data params /\
      forall k, In k (required_keys t) -> dict_get d k <> None)
  \/
  (exists k,
      In k (required_keys t) /\ dict_get d k = None /\
      tool_body env (tool_name t) (JObj d) = (Raise (KeyError k), [])).
Proof.
  intros Ht.
  apply (in_map (fun t => (tool_name t, required_keys t))) in Ht.
  rewrite registry_required in Ht.
  remember (tool_name t) as name eqn:Hname. remember (required_keys t) as keys eqn:Hkeys.
  clear Hname Hkeys t.
  cbn [In] in Ht.
  repeat (destruct Ht as [Ht|Ht]; [injection Ht as <- <-|]); [..|contradiction];
    rewrite_body; split_on_keys;
    first [ left; do 4 eexists; split; [|split]; cycle 1;
            [ reflexivity
            | intros k Hk; cbn [In] in Hk;
              repeat (destruct Hk as [<-|Hk]; [congruence|]); contradiction
            | known_verb ]
          | right; eexists; split; [|split]; cycle 2;
            [reflexivity | cbn [In]; tauto | assumption] ].
Qed.

(** X15. The schemas and the dispatcher agree on what is required. For
    every entry of [TOOLS] and every dict of arguments: when all keys the
    schema lists as [required] are present (with any value), the Backend
    Client is invoked; when one is absent, the answer is
    ["Error: '<key>'"] with [isError], naming a required key that is
    absent, and nothing is invoked. No key outside [required] can make
    the dispatch fail, and no check on the values is made. *)
Theorem required_keys_enforced (env : Env) (t : json) (d : dict) :
  In t TOOLS ->
  ((forall k, In k (required_keys t) -> dict_get d k <> None) ->
   exists method endpoint data params,
     backend_calls (snd (handle_tool_call env (tool_name t) (JObj d)))
     = [EvBackend method endpoint data params])
  /\
  ((exists k, In k (required_keys t) /\ dict_get d k = None) ->
   exists k,
     In k (required_keys t) /\ dict_get d k = None /\
     handle_tool_call env (tool_name t) (JObj d)
     = (Ok (JObj [("content",
                   JList [JObj [("type", JStr "text");
                                ("text", JStr ("Error: " ++ Py.repr_str k))]]);
                  ("isError", JBool true)]),
        [EvLog ("Tool error " ++ Py.str (tool_name t) ++ ": " ++ Py.repr_str k)])).
Proof.
  intros Ht.
  destruct (shaping_by_required env t d Ht)
    as [(m & ep & dt & p & Hm & Hb & Hall) | (k & Hk & Hnone & Hb)].
  - split.
    + intros _. exists m, ep, dt, p. now apply calls_of_call.
    + intros (k & Hk & Hnone). now elim (Hall k Hk).
  - split.
    + intros Hall. now elim (Hall k Hk).
    + intros _. exists k. repeat split; auto.
      now rewrite (handle_of_raise env _ _ _ Hb).
Qed.

Lemma required_keys_enforced_witness :
  (exists method endpoint data params,
      backend_calls
        (snd (handle_tool_call env_404 (JStr "add_domain")
                (JObj [("domain", JNull); ("project_id", JStr EmptyString)])))
      = [EvBackend method endpoint data params])
  /\
  (exists k,
      In k ["project_id"; "domain"] /\ dict_get [("domain", JStr "acme.dev")] k = None /\
      handle_tool_call env_404 (JStr "add_domain") (JObj [("domain", JStr "acme.dev")])
      = (Ok (JObj [("content",
                    JList [JObj [("type", JStr "text");
                                 ("text", JStr ("Error: " ++ Py.repr_str k))]]);
                   ("isError", JBool true)]),
         [EvLog ("Tool error " ++ Py.str (JStr "add_domain") ++ ": " ++ Py.repr_str k)])).
Proof.
  split.
  - apply (proj1 (required_keys_enforced env_404
                    (tool "add_domain" "Add a domain to a project"
                       [("project_id", string_prop "Project ID");
                        ("domain", string_prop "Domain name to add")]
                       ["project_id"; "domain"])
                    [("domain", JNull); ("project_id", JStr EmptyString)]
                    ltac:(cbv; tauto))).
    intros k Hk. cbn in Hk. destruct Hk as [<-|[<-|[]]]; discriminate.
  - apply (proj2 (required_keys_enforced env_404
                    (tool "add_domain" "Add a domain to a project"
                       [("project_id", string_prop "Project ID");
                        ("domain", string_prop "Domain name to add")]
                       ["project_id"; "domain"])
                    [("domain", JStr "acme.dev")]
                    ltac:(cbv; tauto))).
    exists "project_id". split; [cbn; tauto | reflexivity].
Defined.

(** Whatever the arguments, a matched branch either raises before any
    call or ends in one call with the verb of its tool. *)
Lemma tool_body_outcome (env : Env) (s method : string) (args : json) :
  In (s, method) tool_verbs ->
  (exists e msg,
      tool_body env (JStr s) args = (Raise e, []) /\
      (e = KeyError msg \/ e = AttributeError msg \/ e = TypeError msg) /\
      (is_dict args = false -> e <> KeyError msg))
  \/
  (exists endpoint data params,
      tool_body env (JStr s) args = call_backend env method endpoint data params /\
      (is_dict args = false -> s = "get_user") /\
      (forall q, params = Some q -> dict_get q "teamId" = None)).
Proof.
  intros Hs. cbn [In tool_verbs] in Hs.
  repeat (destruct Hs as [Hs|Hs]; [injection Hs as <- <-|]); [..|contradiction];
    (destruct args as [ | | | | | |d];
     [ first [ right; do 3 eexists; split; [apply body_get_user|]; split;
               [reflexivity | discriminate]
             | left; do 2 eexists; split; [reflexivity|]; split;
               [ first [ left; reflexivity | right; left; reflexivity
                       | right; right; reflexivity ]
               | intros _; discriminate ] ] .. | ]);
    rewrite_body; split_on_keys;
    first [ right; do 3 eexists; split; [reflexivity|]; split; [discriminate|];
            intros q Hq;
            first [ discriminate Hq
                  | injection Hq as <-;
                    repeat match goal with
                           | |- context [if ?c then _ else _] => destruct c
                           end;
                    reflexivity ]
          | left; do 2 eexists; split; [reflexivity|]; split;
            [left; reflexivity | discriminate] ].
Qed.

Lemma registry_verbs (name : json) :
  In name tool_names -> exists s method, name = JStr s /\ In (s, method) tool_verbs.
Proof.
  intros H. cbv in H.
  repeat (destruct H as [<-|H]; [do 2 eexists; split; [reflexivity | cbv; tauto]|]).
  contradiction.
Qed.

(** X16. Every tool but [get_user] rejects arguments that are not a
    dict (a list, a string, a number, [null]): the attempt to read them
    raises [AttributeError] or [TypeError], the answer carries [isError]
    and that exception's message, and the Backend Client is not invoked. *)
Theorem non_dict_arguments_rejected (env : Env) (name args : json) :
  In name tool_names ->
  name <> JStr "get_user" ->
  is_dict args = false ->
  exists msg,
    handle_tool_call env name args
    = (Ok (JObj [("content",
                  JList [JObj [("type", JStr "text"); ("text", JStr ("Error: " ++ msg))]]);
                 ("isError", JBool true)]),
       [EvLog ("Tool error " ++ Py.str name ++ ": " ++ msg)])
    /\ (tool_body env name args = (Raise (AttributeError msg), [])
        \/ tool_body env name args = (Raise (TypeError msg), [])).
Proof.
  intros Hn Hu Hd.
  destruct (registry_verbs name Hn) as [s [m [-> Hs]]].
  destruct (tool_body_outcome env s m args Hs)
    as [(e & msg & Hb & He & Hk) | (ep & dt & p & _ & Hg & _)].
  - exists msg. specialize (Hk Hd).
    destruct He as [-> | [-> | ->]]; [now elim Hk | |];
      (split; [now rewrite (handle_of_raise env _ _ _ Hb) | auto]).
  - elim Hu. now rewrite (Hg Hd).
Qed.

Lemma non_dict_arguments_rejected_witness :
  exists msg,
    handle_tool_call env_404 (JStr "list_domains") (JList [JInt 5])
    = (Ok (JObj [("content",
                  JList [JObj [("type", JStr "text"); ("text", JStr ("Error: " ++ msg))]]);
                 ("isError", JBool true)]),
       [EvLog ("Tool error " ++ Py.str (JStr "list_domains") ++ ": " ++ msg)])
    /\ (tool_body env_404 (JStr "list_domains") (JList [JInt 5])
        = (Raise (AttributeError msg), [])
        \/ tool_body env_404 (JStr "list_domains") (JList [JInt 5])
           = (Raise (TypeError msg), [])).
Proof.
  apply (non_dict_arguments_rejected env_404 (JStr "list_domains") (JList [JInt 5])).
  - cbv. tauto.
  - discriminate.
  - reflexivity.
Defined.

(** X17. The seven tools that list or get only ever send GET, and send
    it without a body, whatever their arguments. *)
Theorem read_tools_only_get (env : Env) (name args : json) (req : HttpRequest) :
  In name read_tools ->
  In req (http_requests (snd (handle_tool_call env name args))) ->
  verb req = "GET" /\ body req = None.
Proof.
  intros Hr Hin.
  assert (Hs : exists s, name = JStr s /\ In (s, "GET") tool_verbs).
  { cbv in Hr.
    repeat (destruct Hr as [<-|Hr]; [eexists; split; [reflexivity | cbv; tauto]|]).
    contradiction. }
  destruct Hs as [s [-> Hs]].
  destruct (tool_body_outcome env s "GET" args Hs)
    as [(e & msg & Hb & _) | (ep & dt & p & Hb & _)].
  - rewrite (handle_of_raise env _ _ _ Hb) in Hin. cbn in Hin. contradiction.
  - assert (Hv : In "GET" http_verbs) by known_verb.
    rewrite (handle_of_call env _ _ _ _ _ _ Hv Hb) in Hin. cbn in Hin.
    destruct Hin as [<-|[]]. split; reflexivity.
Qed.

Lemma read_tools_only_get_witness :
  verb (outbound env_team "GET" "/v6/deployments" None (Some [("limit", JInt 10)])) = "GET"
  /\ body (outbound env_team "GET" "/v6/deployments" None (Some [("limit", JInt 10)])) = None.
Proof.
  apply (read_tools_only_get env_team (JStr "list_deployments") (JObj [])).
  - cbv. tauto.
  - cbv. tauto.
Defined.

(** X18. Every request a dispatch sends goes to the fixed base URL,
    carries the configured bearer token and the JSON content type as its
    only headers, and uses GET, POST, PATCH or DELETE: no tool sends PUT,
    although the client knows the verb. *)
Theorem dispatch_request_target (env : Env) (name args : json) (req : HttpRequest) :
  In req (http_requests (snd (handle_tool_call env name args))) ->
  In (verb req) ["GET"; "POST"; "PATCH"; "DELETE"]
  /\ (exists endpoint, url req = "https://api.vercel.com" ++ endpoint)
  /\ headers req = [("Authorization", "Bearer " ++ VERCEL_TOKEN env);
                    ("Content-Type", "application/json")].
Proof.
  intros Hin.
  destruct (handle_tool_call_cases env name args)
    as [(_ & _ & H) | [(_ & e & _ & H) | (Hn & _)]];
    [rewrite H in Hin; cbn in Hin; contradiction .. | ].
  destruct (registry_verbs name Hn) as [s [m [-> Hs]]].
  assert (Hm : In m ["GET"; "POST"; "PATCH"; "DELETE"]).
  { cbn [In tool_verbs] in Hs.
    repeat (destruct Hs as [Hs|Hs]; [injection Hs as _ <-; cbv; tauto|]).
    contradiction. }
  assert (Hv : In m http_verbs) by (cbn in Hm |- *; tauto).
  destruct (tool_body_outcome env s m args Hs)
    as [(e & msg & Hb & _) | (ep & dt & p & Hb & _)].
  - rewrite (handle_of_raise env _ _ _ Hb) in Hin. cbn in Hin. contradiction.
  - rewrite (handle_of_call env _ _ _ _ _ _ Hv Hb) in Hin. cbn in Hin.
    destruct Hin as [<-|[]]. split; [exact Hm|]. split; [|reflexivity].
    exists ep. reflexivity.
Qed.

Lemma dispatch_request_target_witness :
  In (verb (outbound env_team "PATCH" "/v12/deployments/dpl_1/cancel" None None))
     ["GET"; "POST"; "PATCH"; "DELETE"]
  /\ (exists endpoint,
         url (outbound env_team "PATCH" "/v12/deployments/dpl_1/cancel" None None)
         = "https://api.vercel.com" ++ endpoint)
  /\ headers (outbound env_team "PATCH" "/v12/deployments/dpl_1/cancel" None None)
     = [("Authorization", "Bearer " ++ VERCEL_TOKEN env_team);
        ("Content-Type", "application/json")].
Proof.
  apply (dispatch_request_target env_team (JStr "cancel_deployment")
           (JObj [("deployment_id", JStr "dpl_1")])).
  cbv. tauto.
Defined.

(** ** The protocol adapter, further *)

(** The three ways [process_mcp_message] ends on a dict: a result, the
    method-not-found error, or the exception of [params.get] when
    [tools/call] comes with [params] that are not a dict. *)
Lemma process_mcp_message_cases (env : Env) (d : dict) :
  (exists result tr,
      process_mcp_message env (JObj d)
      = (Ok (rpc_result (dict_get_default d "id" (JInt 1)) result), tr) /\
      (dict_get_default d "method" (JStr EmptyString) = JStr "tools/call" ->
       is_dict (dict_get_default d "params" (JObj [])) = true))
  \/
  (process_mcp_message env (JObj d)
   = (Ok (JObj [("jsonrpc", JStr "2.0"); ("id", dict_get_default d "id" (JInt 1));
                ("error",
                 JObj [("code", JInt (-32601));
                       ("message",
                        JStr ("Method not found: "
                              ++ Py.str (dict_get_default d "method" (JStr EmptyString))))])]),
      []) /\
   dict_get_default d "method" (JStr EmptyString) <> JStr "tools/call")
  \/
  (process_mcp_message env (JObj d)
   = (Raise (AttributeError
               ("'" ++ Py.type_name (dict_get_default d "params" (JObj []))
                    ++ "' object has no attribute 'get'")), []) /\
   dict_get_default d "method" (JStr EmptyString) = JStr "tools/call" /\
   is_dict (dict_get_default d "params" (JObj [])) = false).
Proof.
  remember (process_mcp_message env (JObj d)) as r eqn:Hr.
  unfold process_mcp_message in Hr. cbn [py_get] in Hr.
  unfold ret at 1 2 3 in Hr. rewrite !bind_ok in Hr.
  destruct (Py.eq_str (dict_get_default d "method" (JStr EmptyString)) "initialize") eqn:E1.
  { left. subst r. do 2 eexists. split; [reflexivity|].
    intros Hm. rewrite Hm in E1. discriminate. }
  destruct (Py.eq_str (dict_get_default d "method" (JStr EmptyString)) "tools/list") eqn:E2.
  { left. subst r. do 2 eexists. split; [reflexivity|].
    intros Hm. rewrite Hm in E2. discriminate. }
  destruct (Py.eq_str (dict_get_default d "method" (JStr EmptyString)) "tools/call") eqn:E3.
  { apply eq_str_true in E3.
    destruct (dict_get_default d "params" (JObj [])) as [ | | | | | |p] eqn:Hp;
      try (right; right; subst r; split; [reflexivity | split; [exact E3 | reflexivity]]).
    left. cbn [py_get] in Hr. unfold ret in Hr. rewrite !bind_ok in Hr.
    destruct (handle_tool_call_returns env (dict_get_default p "name" (JStr EmptyString))
                (dict_get_default p "arguments" (JObj []))) as (v & t & Hv).
    rewrite Hv, bind_ok_trace in Hr. cbn [fst snd] in Hr. rewrite app_nil_r in Hr.
    subst r. do 2 eexists. split; reflexivity. }
  destruct (Py.eq_str (dict_get_default d "method" (JStr EmptyString))
              "notifications/initialized") eqn:E4.
  { left. subst r. do 2 eexists. split; [reflexivity|].
    intros Hm. rewrite Hm in E4. discriminate. }
  right; left. subst r. split; [reflexivity|].
  intros Hm. rewrite Hm in E3. discriminate.
Qed.

Lemma process_mcp_message_non_dict (env : Env) (data : json) :
  is_dict data = false ->
  process_mcp_message env data
  = (Raise (AttributeError ("'" ++ Py.type_name data ++ "' object has no attribute 'get'")),
     []).
Proof. destruct data; try discriminate; reflexivity. Qed.

(** X19. Every response [process_mcp_message] returns is a JSON-RPC
    2.0 envelope with exactly one of [result] and [error]: the keys are
    [jsonrpc] (the string ["2.0"]), [id], and then either [result] or an
    [error] whose code is -32601. *)
Theorem response_envelope (env : Env) (data resp : json) (tr : list event) :
  process_mcp_message env data = (Ok resp, tr) ->
  exists request_id payload,
    (resp = JObj [("jsonrpc", JStr "2.0"); ("id", request_id); ("result", payload)]
     \/ exists message,
          payload = JObj [("code", JInt (-32601)); ("message", JStr message)] /\
          resp = JObj [("jsonrpc", JStr "2.0"); ("id", request_id); ("error", payload)]).
Proof.
  intros H.
  destruct data as [ | | | | | |d];
    try (rewrite process_mcp_message_non_dict in H by reflexivity; discriminate H).
  destruct (process_mcp_message_cases env d)
    as [(result & t & Hp & _) | [(Hp & _) | (Hp & _)]];
    rewrite Hp in H; try discriminate H; injection H as <- _.
  - do 2 eexists. left. reflexivity.
  - do 2 eexists. right. eexists. split; reflexivity.
Qed.

Lemma response_envelope_witness :
  exists request_id payload,
    (JObj [("jsonrpc", JStr "2.0"); ("id", JNull); ("result", JObj [])]
     = JObj [("jsonrpc", JStr "2.0"); ("id", request_id); ("result", payload)]
     \/ exists message,
          payload = JObj [("code", JInt (-32601)); ("message", JStr message)] /\
          JObj [("jsonrpc", JStr "2.0"); ("id", JNull); ("result", JObj [])]
          = JObj [("jsonrpc", JStr "2.0"); ("id", request_id); ("error", payload)]).
Proof.
  apply (response_envelope env_404
           (JObj [("method", JStr "notifications/initialized"); ("id", JNull)])
           (JObj [("jsonrpc", JStr "2.0"); ("id", JNull); ("result", JObj [])]) []).
  reflexivity.
Defined.

(** X20. [process_mcp_message] raises in exactly two situations: the
    message is not a dict (a JSON array, such as a batch, a string, a
    number), or its method is [tools/call] and [params] is present and
    not a dict. The exception is the [AttributeError] of the failed
    [.get]. *)
Theorem process_mcp_message_raises_iff (env : Env) (data : json) :
  (exists e, fst (process_mcp_message env data) = Raise e)
  <->
  (is_dict data = false
   \/ exists d, data = JObj d /\
                dict_get d "method" = Some (JStr "tools/call") /\
                exists params, dict_get d "params" = Some params /\ is_dict params = false).
Proof.
  split.
  - intros (e & He).
    destruct data as [ | | | | | |d]; try (left; reflexivity).
    right. exists d. split; [reflexivity|].
    destruct (process_mcp_message_cases env d)
      as [(result & t & Hp & _) | [(Hp & _) | (Hp & Hm & Hd)]];
      rewrite Hp in He; try discriminate He.
    unfold dict_get_default in Hm, Hd.
    destruct (dict_get d "method") as [m|]; [|discriminate Hm]. subst m.
    split; [reflexivity|].
    destruct (dict_get d "params") as [p|]; [|discriminate Hd].
    exists p. auto.
  - intros [Hd | (d & -> & Hm & p & Hp & Hd)].
    + rewrite (process_mcp_message_non_dict env data Hd). eexists. reflexivity.
    + destruct (process_mcp_message_cases env d)
        as [(result & t & _ & Hc) | [(_ & Hc) | (Hr & _)]].
      * unfold dict_get_default in Hc. rewrite Hm, Hp in Hc.
        rewrite Hc in Hd by reflexivity. discriminate Hd.
      * unfold dict_get_default in Hc. rewrite Hm in Hc. now elim Hc.
      * rewrite Hr. eexists. reflexivity.
Qed.

(** X21. [mcp_handler] always answers, with one of three statuses.
    400 with code -32700 and a [null] id is the answer to every falsy
    body, the empty object and the empty array included, and nothing is
    processed. 500 with code -32603 and the exception's message is the
    answer when [get_json] raises or an exception escapes
    [process_mcp_message]. 200 with the response of
    [process_mcp_message], and its trace, is the answer otherwise. *)
Theorem mcp_handler_status (env : Env) (body : result json) :
  (exists data,
      body = Ok data /\ Py.truthy data = false /\
      mcp_handler env body
      = (Ok (JObj [("jsonrpc", JStr "2.0"); ("id", JNull);
                   ("error", JObj [("code", JInt (-32700));
                                   ("message", JStr "Parse error")])], 400), []))
  \/
  (exists e tr,
      (body = Raise e
       \/ exists data, body = Ok data /\ Py.truthy data = true /\
                       fst (process_mcp_message env data) = Raise e) /\
      mcp_handler env body
      = (Ok (JObj [("jsonrpc", JStr "2.0"); ("id", JInt 1);
                   ("error", JObj [("code", JInt (-32603));
                                   ("message", JStr (exn_str e))])], 500),
         (tr ++ [EvLog ("MCP handler error: " ++ exn_str e)])%list))
  \/
  (exists data resp tr,
      body = Ok data /\ Py.truthy data = true /\
      process_mcp_message env data = (Ok resp, tr) /\
      mcp_handler env body = (Ok (resp, 200), tr)).
Proof.
  destruct body as [data|e].
  - destruct (Py.truthy data) eqn:Ht.
    + destruct (process_mcp_message env data) as [[resp|e] tr] eqn:Hp.
      * right; right. exists data, resp, tr. repeat split; auto.
        unfold mcp_handler, lift. rewrite bind_ok, Ht. cbn [negb].
        rewrite Hp, bind_ok_trace. cbn [fst snd ret try_except]. now rewrite app_nil_r.
      * right; left. exists e, tr. split.
        -- right. exists data. rewrite Hp. auto.
        -- unfold mcp_handler, lift. rewrite bind_ok, Ht. cbn [negb].
           rewrite Hp, bind_raise. unfold try_except. rewrite bind_emit. reflexivity.
    + left. exists data. repeat split; auto.
      unfold mcp_handler, lift. rewrite bind_ok, Ht. reflexivity.
  - right; left. exists e, []. split; [left; reflexivity|]. reflexivity.
Qed.

(** X22. A [tools/call] whose [params] are absent or a dict is always
    answered with status 200 and a JSON-RPC [result], never an [error]:
    an unknown tool, unusable arguments and a failing upstream all stay
    inside the result. *)
Theorem tool_failures_are_http_200 (env : Env) (d p : dict) :
  dict_get d "method" = Some (JStr "tools/call") ->
  dict_get_default d "params" (JObj []) = JObj p ->
  exists result tr,
    handle_tool_call env (dict_get_default p "name" (JStr EmptyString))
                         (dict_get_default p "arguments" (JObj []))
    = (Ok result, tr) /\
    mcp_handler env (Ok (JObj d))
    = (Ok (JObj [("jsonrpc", JStr "2.0"); ("id", dict_get_default d "id" (JInt 1));
                 ("result", result)], 200), tr).
Proof.
  intros Hm Hp.
  assert (Hm' : dict_get_default d "method" (JStr EmptyString) = JStr "tools/call")
    by (unfold dict_get_default; now rewrite Hm).
  destruct (handle_tool_call_returns env (dict_get_default p "name" (JStr EmptyString))
              (dict_get_default p "arguments" (JObj []))) as (v & t & Hv).
  exists v, t. split; [exact Hv|].
  assert (Ht : Py.truthy (JObj d) = true) by (destruct d; [discriminate Hm | reflexivity]).
  unfold mcp_handler, lift. rewrite bind_ok, Ht. cbn [negb].
  rewrite (process_tools_call env d p Hm' Hp), Hv, bind_ok_trace.
  cbn [fst snd ret]. rewrite bind_ok_trace.
  cbn [fst snd ret try_except]. now rewrite !app_nil_r.
Qed.

Lemma tool_failures_are_http_200_witness :
  exists result tr,
    handle_tool_call env_404 (JStr "get_project") (JObj []) = (Ok result, tr) /\
    mcp_handler env_404
      (Ok (JObj [("id", JInt 4); ("method", JStr "tools/call");
                 ("params", JObj [("name", JStr "get_project")])]))
    = (Ok (JObj [("jsonrpc", JStr "2.0"); ("id", JInt 4); ("result", result)], 200), tr).
Proof.
  apply (tool_failures_are_http_200 env_404
           [("id", JInt 4); ("method", JStr "tools/call");
            ("params", JObj [("name", JStr "get_project")])]
           [("name", JStr "get_project")]); reflexivity.
Defined.



(** ** The liveness route *)

(** X24. What [health] discloses of the team identifier: ["not set"]
    when none is configured, otherwise at most its first eight characters
    followed by three dots. An identifier of eight characters or fewer is
    therefore shown whole. The [tools] count is the size of the registry,
    15. *)
Theorem health_team_id (env : Env) :
  field (health env) "tools" = Some (JInt 15)
  /\ exists shown,
       field (health env) "team_id" = Some (JStr shown) /\
       (VERCEL_TEAM_ID env = EmptyString -> shown = "not set") /\
       (VERCEL_TEAM_ID env <> EmptyString ->
        exists visible,
          shown = visible ++ "..." /\
          String.prefix visible (VERCEL_TEAM_ID env) = true /\
          (String.length visible <= 8)%nat /\
          ((String.length (VERCEL_TEAM_ID env) <= 8)%nat -> visible = VERCEL_TEAM_ID env)).
Proof.
  split; [reflexivity|].
  eexists. split; [reflexivity|]. split.
  - intros ->. reflexivity.
  - intros Hteam. apply String.eqb_neq in Hteam. rewrite Hteam. cbn [negb].
    exists (substring 0 8 (VERCEL_TEAM_ID env)). split; [reflexivity|].
    split; [apply substring_0_prefix|].
    split; [apply substring_0_length | apply substring_0_all].
Qed.

Lemma health_team_id_witness :
  health env_team
  = JObj [("status", JStr "healthy"); ("service", JStr "vercel-mcp");
          ("version", JStr "1.0.0"); ("tools", JInt 15);
          ("team_id", JStr "team_abc...")]
  /\ exists visible,
       "team_abc..." = visible ++ "..." /\
       String.prefix visible "team_abc" = true /\
       (String.length visible <= 8)%nat /\
       ((String.length "team_abc" <= 8)%nat -> visible = "team_abc").
Proof.
  split; [reflexivity|].
  destruct (proj2 (health_team_id env_team)) as (shown & Hshown & _ & Hvis).
  injection Hshown as <-.
  apply Hvis. discriminate.
Defined.

(** ** Instances *)

Lemma registry_is_dispatch_table_witness :
  fst (handle_tool_call env_404 (JStr "redeploy") (JObj []))
  <> Ok (JObj [("content",
                JList [JObj [("type", JStr "text");
                             ("text", JStr ("Unknown tool: " ++ Py.str (JStr "redeploy")))]]);
               ("isError", JBool true)]).
Proof.
  apply (proj1 (registry_is_dispatch_table env_404 (JStr "redeploy") (JObj []))).
  cbv. tauto.
Defined.

Lemma dispatch_trace_shape_witness :
  snd (handle_tool_call env_404 (JStr "redeploy") (JObj []))
  = [EvLog "Tool error redeploy: 'deployment_id'"].
Proof.
  apply (proj2 (proj2 (dispatch_trace_shape env_404 (JStr "redeploy") (JObj [])))).
  cbv. tauto.
Defined.

Lemma process_mcp_message_raises_iff_witness :
  exists e, fst (process_mcp_message env_404 (JList [positional_call])) = Raise e.
Proof.
  apply (proj2 (process_mcp_message_raises_iff env_404 (JList [positional_call]))).
  left. reflexivity.
Defined.
